(** * A shallow embedding of the Brave Search client (braveSearch.ts)

    The client exists in four snapshots in the repository:
    - [V1]: first class of src/src/braveSearch.ts (maxPollAttempts = 5,
      BraveSearchError without responseData);
    - [V2]: second class of src/src/braveSearch.ts
      (maxPollAttempts = DEFAULT_POLLING_TIMEOUT / pollInterval);
    - [V3]: first class of the part_002 file (the 422 retry of webSearch);
    - the last class of the part_002 file (DEFAULT_POLLING_INTERVAL,
      DEFAULT_MAX_POLL_ATTEMPTS, AbortSignal), the main model below.

    pollForSummary, summarizerSearch, getHeaders and formatOptions are the
    same text in all four.  The network (axios) is an oracle [server]: the
    outcome of the i-th GET of the run, given the request.  Waiting
    ([setTimeout]) is recorded as an event.  JS numbers are modelled as
    integers (Z); floating point is not modelled. *)

From Stdlib Require Import String List ZArith Bool Ascii Lia.
Import ListNotations.
Open Scope string_scope.
Open Scope list_scope.
Set Warnings "-register-all".

(** ** JSON values, as decoded by axios *)

Inductive json : Type :=
| JNull
| JBool (b : bool)
| JNum (n : Z)
| JStr (s : string)
| JArr (items : list json)
| JObj (fields : list (string * json)).

(** A JS object as its entry list: first match wins (decoded JSON has
    distinct keys). *)
Fixpoint assoc_get {A} (k : string) (l : list (string * A)) : option A :=
  match l with
  | [] => None
  | (k', v) :: l' => if String.eqb k k' then Some v else assoc_get k l'
  end.

(** [o?.k]: [None] stands for [undefined]. *)
Definition get_field (o : option json) (k : string) : option json :=
  match o with
  | Some (JObj fs) => assoc_get k fs
  | _ => None
  end.

(** JS truthiness of a value that may be [undefined]. *)
Definition truthy (v : option json) : bool :=
  match v with
  | None | Some JNull => false
  | Some (JBool b) => b
  | Some (JNum n) => negb (Z.eqb n 0)
  | Some (JStr s) => negb (String.eqb s "")
  | Some (JArr _) | Some (JObj _) => true
  end.

(** [v === s] for a string literal [s]. *)
Definition js_eq_str (v : option json) (s : string) : bool :=
  match v with
  | Some (JStr s') => String.eqb s' s
  | _ => false
  end.

(** ** Decimal rendering of integers ([Number.prototype.toString]) *)

Fixpoint digits_aux (fuel : nat) (n : N) (acc : string) : string :=
  match fuel with
  | O => acc
  | S f =>
      let acc' := String (ascii_of_N (48 + N.modulo n 10)) acc in
      if (n <? 10)%N then acc' else digits_aux f (N.div n 10) acc'
  end.

Definition N_to_decimal (n : N) : string :=
  digits_aux (S (N.size_nat n)) n "".

Definition Z_to_decimal (z : Z) : string :=
  match z with
  | Zneg p => "-" ++ N_to_decimal (Npos p)
  | _ => N_to_decimal (Z.to_N z)
  end.

(** Template-literal rendering [`${v}`] of a JSON value. *)
Fixpoint js_string (j : json) : string :=
  match j with
  | JNull => "null"
  | JBool true => "true"
  | JBool false => "false"
  | JNum n => Z_to_decimal n
  | JStr s => s
  | JArr items =>
      (fix go (l : list json) : string :=
         match l with
         | [] => ""
         | [x] => match x with JNull => "" | _ => js_string x end
         | x :: l' =>
             (match x with JNull => "" | _ => js_string x end) ++ "," ++ go l'
         end) items
  | JObj _ => "[object Object]"
  end%string.

Definition js_string_opt (v : option json) : string :=
  match v with
  | None => "undefined"
  | Some j => js_string j
  end.

(** ** Options bags and formatOptions *)

(** The primitive option values of the option types (string, boolean,
    number); [None] in an entry is the value [undefined]. *)
Inductive prim : Type :=
| PStr (s : string)
| PBool (b : bool)
| PNum (n : Z).

Definition prim_toString (v : prim) : string :=
  match v with
  | PStr s => s
  | PBool true => "true"
  | PBool false => "false"
  | PNum n => Z_to_decimal n
  end.

(** [acc[key] = value] on a JS object kept as its entries in order. *)
Fixpoint obj_set {A} (o : list (string * A)) (k : string) (v : A)
  : list (string * A) :=
  match o with
  | [] => [(k, v)]
  | (k', v') :: o' =>
      if String.eqb k k' then (k, v) :: o' else (k', v') :: obj_set o' k v
  end.

(** [Object.entries(options).reduce(...)] *)
Definition formatOptions (options : list (string * option prim))
  : list (string * string) :=
  fold_left
    (fun acc '(key, value) =>
       match value with
       | Some v => obj_set acc key (prim_toString v)
       | None => acc
       end)
    options [].

(** [{ ...base, ...rest }] *)
Definition obj_spread (base rest : list (string * string))
  : list (string * string) :=
  fold_left (fun acc '(k, v) => obj_set acc k v) rest base.

(** The options keys of [BraveSearchOptions] (types.ts). *)
Definition brave_search_option_keys : list string :=
  ["country"; "search_lang"; "ui_lang"; "safesearch"; "freshness";
   "text_decorations"; "spellcheck"; "goggles_id"; "units";
   "extra_snippets"; "count"; "offset"; "result_filter"; "summary"].

(** ** Requests, network outcomes and errors *)

Record request : Type := mkRequest {
  req_url : string;                      (** [${baseUrl}/...] *)
  req_params : list (string * string);   (** the URLSearchParams pairs *)
  req_headers : list (string * string)
}.

Inductive event : Type :=
| Get (r : request)
| Sleep (ms : Z)
| Warn (msg : string).

(** What [await axios.get(...)] yields: a 2xx response body, an AxiosError
    (with [error.response?.status], [error.response?.data],
    [error.message]) or another thrown error. *)
Inductive http_outcome : Type :=
| Ok200 (data : json)
| AxiosFail (status : option Z) (data : option json) (message : string)
| OtherFail (message : string).

Record BraveSearchError : Type := mkError {
  message : string;
  responseData : option json     (** [None]: [undefined] *)
}.

(** The value caught by [catch (error)] and handed to handleApiError. *)
Inductive thrown : Type :=
| ThrownAxios (status : option Z) (data : option json) (msg : string)
| ThrownError (msg : string).

(** [status === n] for a status that may be [undefined]. *)
Definition status_is (st : option Z) (n : Z) : bool :=
  match st with Some z => Z.eqb z n | None => false end.

Definition status_string (st : option Z) : string :=
  match st with Some z => Z_to_decimal z | None => "undefined" end.

(** [error.response?.data?.message || error.message] *)
Definition api_message (data : option json) (msg : string) : string :=
  let m := get_field data "message" in
  if truthy m then js_string_opt m else msg.

(** handleApiError of the last part_002 class and of [V2] (same text). *)
Definition handleApiError (error : thrown) : BraveSearchError :=
  match error with
  | ThrownAxios status data msg =>
      let message := api_message data msg in
      let responseData := data in
      if status_is status 429 then
        mkError ("Rate limit exceeded: " ++ message) responseData
      else if status_is status 401 then
        mkError ("Authentication error: " ++ message) responseData
      else
        mkError ("API error (" ++ status_string status ++ "): " ++ message)
                responseData
  | ThrownError msg => mkError ("Unexpected error: " ++ msg) None
  end.

Definition summary_failed_error : BraveSearchError :=
  mkError "Summary generation failed" None.

Definition summary_exhausted_error : BraveSearchError :=
  mkError "Summary not available after maximum polling attempts" None.

(** ** The client object and the effect monad *)

Record BraveSearch : Type := mkBraveSearch {
  apiKey : string;
  baseUrl : string;
  pollInterval : Z;
  maxPollAttempts : Z
}.

Record PollingOptions : Type := mkPollingOptions {
  opt_pollInterval : option Z;
  opt_maxPollAttempts : option Z
}.

Definition base_url : string := "https://api.search.brave.com/res/v1".
Definition DEFAULT_POLLING_INTERVAL : Z := 500.
Definition DEFAULT_MAX_POLL_ATTEMPTS : Z := 20.

(** [constructor(apiKey, options?)] of the last part_002 class. *)
Definition new_BraveSearch (key : string) (options : option PollingOptions)
  : BraveSearch :=
  {| apiKey := key;
     baseUrl := base_url;
     pollInterval :=
       match options with
       | Some o => match opt_pollInterval o with
                   | Some v => v | None => DEFAULT_POLLING_INTERVAL end
       | None => DEFAULT_POLLING_INTERVAL
       end;
     maxPollAttempts :=
       match options with
       | Some o => match opt_maxPollAttempts o with
                   | Some v => v | None => DEFAULT_MAX_POLL_ATTEMPTS end
       | None => DEFAULT_MAX_POLL_ATTEMPTS
       end |}.

(** The state threaded through a run: the object [this] and the trace of
    network requests and timers. *)
Record world : Type := mkWorld {
  self : BraveSearch;
  trace : list event
}.

Inductive result (A : Type) : Type :=
| Ok (a : A)
| Err (e : BraveSearchError).
Arguments Ok {A} a.
Arguments Err {A} e.

Definition M (A : Type) : Type := world -> result A * world.

Definition ret {A} (a : A) : M A := fun w => (Ok a, w).

Definition bind {A B} (m : M A) (k : A -> M B) : M B :=
  fun w => match m w with
           | (Ok a, w') => k a w'
           | (Err e, w') => (Err e, w')
           end.

Definition throw {A} (e : BraveSearchError) : M A := fun w => (Err e, w).

Definition get_self : M BraveSearch := fun w => (Ok (self w), w).

Definition emit (ev : event) : M unit :=
  fun w => (Ok tt, mkWorld (self w) (trace w ++ [ev])).

(** A promise observed by [.then]: its outcome as a value. *)
Definition settle {A} (m : M A) : M (result A) :=
  fun w => let (r, w') := m w in (Ok r, w').

Notation "x <- m ;; k" := (bind m (fun x => k))
  (at level 61, m at next level, right associativity).
Notation "m ;; k" := (bind m (fun _ => k))
  (at level 61, right associativity).

Definition is_get (ev : event) : bool :=
  match ev with Get _ => true | _ => false end.

Definition count_gets (t : list event) : nat := length (filter is_get t).

(** [await new Promise((resolve) => setTimeout(resolve, ms))] *)
Definition sleep (ms : Z) : M unit := emit (Sleep ms).

(** ** The methods of the last part_002 class *)

Section Client.

(** The network: the outcome of the [i]-th GET of the run. *)
Variable server : nat -> request -> http_outcome.

Definition axios_get (r : request) : M http_outcome :=
  fun w => (Ok (server (count_gets (trace w)) r),
            mkWorld (self w) (trace w ++ [Get r])).

Definition getHeaders : M (list (string * string)) :=
  s <- get_self;;
  ret [("Accept", "application/json"); ("Accept-Encoding", "gzip");
       ("X-Subscription-Token", apiKey s)].

(** The [try { axios.get(...) ; return response.data } catch (error)
    { throw this.handleApiError(error) }] shared by every request method. *)
Definition get_data (path : string) (params : list (string * string))
  : M json :=
  s <- get_self;;
  headers <- getHeaders;;
  o <- axios_get (mkRequest (baseUrl s ++ path) params headers);;
  match o with
  | Ok200 data => ret data
  | AxiosFail st d m => throw (handleApiError (ThrownAxios st d m))
  | OtherFail m => throw (handleApiError (ThrownError m))
  end.

(** [new URLSearchParams({ q: query, ...this.formatOptions(options) })] *)
Definition webSearch_params (query : string)
  (options : list (string * option prim)) : list (string * string) :=
  obj_spread [("q", query)] (formatOptions options).

Definition webSearch (query : string) (options : list (string * option prim))
  : M json :=
  get_data "/web/search" (webSearch_params query options).

Definition localPoiSearch (ids : list string) : M json :=
  get_data "/local/pois" [("ids", String.concat "," ids)].

Definition localDescriptionsSearch (ids : list string) : M json :=
  get_data "/local/descriptions" [("ids", String.concat "," ids)].

Definition summarizerSearch_params (key : string)
  (options : list (string * option prim)) : list (string * string) :=
  obj_spread [("key", key)] (formatOptions options).

Definition summarizerSearch (key : string)
  (options : list (string * option prim)) : M json :=
  get_data "/summarizer/search" (summarizerSearch_params key options).

(** [summaryResponse.status === "complete" && summaryResponse.summary] *)
Definition complete_with_summary (r : json) : bool :=
  js_eq_str (get_field (Some r) "status") "complete"
  && truthy (get_field (Some r) "summary").

(** [summaryResponse.status === "failed"] *)
Definition status_failed (r : json) : bool :=
  js_eq_str (get_field (Some r) "status") "failed".

(** The [for (let attempt = 0; attempt < this.maxPollAttempts; attempt++)]
    loop.  [fuel] only makes the recursion structural: pollForSummary starts
    it above the number of iterations the guard allows. *)
Fixpoint poll_loop (fuel attempt : nat) (key : string)
  (options : list (string * option prim)) : M json :=
  match fuel with
  | O => throw summary_exhausted_error
  | S fuel' =>
      s <- get_self;;
      if Z.ltb (Z.of_nat attempt) (maxPollAttempts s) then
        summaryResponse <- summarizerSearch key options;;
        if complete_with_summary summaryResponse then ret summaryResponse
        else if status_failed summaryResponse then throw summary_failed_error
        else
          sleep (pollInterval s);;
          poll_loop fuel' (S attempt) key options
      else throw summary_exhausted_error
  end.

Definition pollForSummary (key : string)
  (options : list (string * option prim)) : M json :=
  s <- get_self;;
  poll_loop (S (Z.to_nat (maxPollAttempts s))) 0 key options.

(** getSummarizedAnswer returns two promises; each is observed here by its
    settled outcome: [webSearch] and [summary] (the [.then] continuation,
    which rejects with the web search error if that one rejects).
    [Ok None] is the value [undefined]. *)
Definition getSummarizedAnswer (query : string)
  (options summarizerOptions : list (string * option prim))
  : M (result json * result (option json)) :=
  webSearchResponse <- settle (webSearch query options);;
  summary <- settle
    (match webSearchResponse with
     | Ok r =>
         let summarizerKey := get_field (get_field (Some r) "summarizer") "key" in
         if truthy summarizerKey then
           p <- pollForSummary (js_string_opt summarizerKey) summarizerOptions;;
           ret (Some p)
         else ret None
     | Err e => throw e
     end);;
  ret (webSearchResponse, summary).

End Client.

(** ** The other snapshots *)

(** First class of src/src/braveSearch.ts. *)
Module V1.

(** [maxPollAttempts = 5; pollInterval = 500;
    if (options) { ... = options.x ?? this.x }] *)
Definition new_BraveSearch (key : string) (options : option PollingOptions)
  : BraveSearch :=
  let maxPollAttempts0 := 5%Z in
  let pollInterval0 := 500%Z in
  match options with
  | Some o =>
      {| apiKey := key; baseUrl := base_url;
         pollInterval := match opt_pollInterval o with
                         | Some v => v | None => pollInterval0 end;
         maxPollAttempts := match opt_maxPollAttempts o with
                            | Some v => v | None => maxPollAttempts0 end |}
  | None =>
      {| apiKey := key; baseUrl := base_url;
         pollInterval := pollInterval0; maxPollAttempts := maxPollAttempts0 |}
  end.

(** Its BraveSearchError has no [responseData] field: reading it gives
    [undefined]. *)
Definition handleApiError (error : thrown) : BraveSearchError :=
  match error with
  | ThrownAxios status data msg =>
      let message := api_message data msg in
      if status_is status 429 then
        mkError ("Rate limit exceeded: " ++ message) None
      else if status_is status 401 then
        mkError ("Authentication error: " ++ message) None
      else
        mkError ("API error (" ++ status_string status ++ "): " ++ message) None
  | ThrownError msg => mkError ("Unexpected error: " ++ msg) None
  end.

(** [try { ... } catch (error) { throw handler(error) }] *)
Definition catch {A} (m : M A) (handler : BraveSearchError -> M A) : M A :=
  fun w => match m w with
           | (Ok a, w') => (Ok a, w')
           | (Err e, w') => handler e w'
           end.

Section Methods.

Variable server : nat -> request -> http_outcome.

(** The request methods of this class, with its own handleApiError. *)
Definition get_data (path : string) (params : list (string * string))
  : M json :=
  s <- get_self;;
  headers <- getHeaders;;
  o <- axios_get server (mkRequest (baseUrl s ++ path) params headers);;
  match o with
  | Ok200 data => ret data
  | AxiosFail st d m => throw (handleApiError (ThrownAxios st d m))
  | OtherFail m => throw (handleApiError (ThrownError m))
  end.

Definition webSearch (query : string) (options : list (string * option prim))
  : M json :=
  get_data "/web/search" (webSearch_params query options).

Definition summarizerSearch (key : string)
  (options : list (string * option prim)) : M json :=
  get_data "/summarizer/search" (summarizerSearch_params key options).

(** [new URLSearchParams({ ids: ids.join(","), ...this.formatOptions(options) })] *)
Definition localPoiSearch (ids : list string)
  (options : list (string * option prim)) : M json :=
  get_data "/local/pois"
    (obj_spread [("ids", String.concat "," ids)] (formatOptions options)).

Definition localDescriptionsSearch (ids : list string)
  (options : list (string * option prim)) : M json :=
  get_data "/local/descriptions"
    (obj_spread [("ids", String.concat "," ids)] (formatOptions options)).

Fixpoint poll_loop (fuel attempt : nat) (key : string)
  (options : list (string * option prim)) : M json :=
  match fuel with
  | O => throw summary_exhausted_error
  | S fuel' =>
      s <- get_self;;
      if Z.ltb (Z.of_nat attempt) (maxPollAttempts s) then
        summaryResponse <- summarizerSearch key options;;
        if complete_with_summary summaryResponse then ret summaryResponse
        else if status_failed summaryResponse then throw summary_failed_error
        else
          sleep (pollInterval s);;
          poll_loop fuel' (S attempt) key options
      else throw summary_exhausted_error
  end.

Definition pollForSummary (key : string)
  (options : list (string * option prim)) : M json :=
  s <- get_self;;
  poll_loop (S (Z.to_nat (maxPollAttempts s))) 0 key options.

(** This getSummarizedAnswer awaits both results and returns
    [{ summary, webSearchResponse }] ([None]: no summary); every error is
    caught and passed again through handleApiError, where a
    BraveSearchError is not an AxiosError. *)
Definition getSummarizedAnswer (query : string)
  (options summarizerOptions : list (string * option prim))
  : M (json * option json) :=
  catch
    (webSearchResponse <- webSearch query options;;
     let summarizerKey :=
       get_field (get_field (Some webSearchResponse) "summarizer") "key" in
     if truthy summarizerKey then
       summary <- pollForSummary (js_string_opt summarizerKey) summarizerOptions;;
       ret (webSearchResponse, Some summary)
     else ret (webSearchResponse, None))
    (fun error => throw (handleApiError (ThrownError (message error)))).

End Methods.

End V1.

(** Second class of src/src/braveSearch.ts and first class of part_002:
    [pollInterval = 500; maxPollAttempts = DEFAULT_POLLING_TIMEOUT /
    this.pollInterval] (the field initialisers run in order, before the
    constructor body; 20000 / 500 is exact). *)
Module V2.

Definition DEFAULT_POLLING_TIMEOUT : Z := 20000.

Definition new_BraveSearch (key : string) (options : option PollingOptions)
  : BraveSearch :=
  let pollInterval0 := 500%Z in
  let maxPollAttempts0 := (DEFAULT_POLLING_TIMEOUT / pollInterval0)%Z in
  match options with
  | Some o =>
      {| apiKey := key; baseUrl := base_url;
         pollInterval := match opt_pollInterval o with
                         | Some v => v | None => pollInterval0 end;
         maxPollAttempts := match opt_maxPollAttempts o with
                            | Some v => v | None => maxPollAttempts0 end |}
  | None =>
      {| apiKey := key; baseUrl := base_url;
         pollInterval := pollInterval0; maxPollAttempts := maxPollAttempts0 |}
  end.

(** Its webSearch, getSummarizedAnswer, summarizerSearch, pollForSummary and
    handleApiError are those of the last part_002 class (the same text
    without [signal]); its local searches still take options. *)
Definition localPoiSearch (server : nat -> request -> http_outcome)
  (ids : list string) (options : list (string * option prim)) : M json :=
  get_data server "/local/pois"
    (obj_spread [("ids", String.concat "," ids)] (formatOptions options)).

Definition localDescriptionsSearch (server : nat -> request -> http_outcome)
  (ids : list string) (options : list (string * option prim)) : M json :=
  get_data server "/local/descriptions"
    (obj_spread [("ids", String.concat "," ids)] (formatOptions options)).

End V2.

(** ** Public calls on the src/src classes *)

Inductive src_call : Type :=
| SrcWebSearch (query : string) (options : list (string * option prim))
| SrcSummarizedAnswer (query : string)
    (options summarizerOptions : list (string * option prim))
| SrcLocalPoiSearch (ids : list string) (options : list (string * option prim))
| SrcLocalDescriptionsSearch (ids : list string)
    (options : list (string * option prim)).

(** A public call on the first src/src class, its outcome discarded. *)
Definition run_call_v1 (server : nat -> request -> http_outcome) (c : src_call)
  : M unit :=
  match c with
  | SrcWebSearch q o => _ <- settle (V1.webSearch server q o);; ret tt
  | SrcSummarizedAnswer q o so =>
      _ <- settle (V1.getSummarizedAnswer server q o so);; ret tt
  | SrcLocalPoiSearch ids o => _ <- settle (V1.localPoiSearch server ids o);; ret tt
  | SrcLocalDescriptionsSearch ids o =>
      _ <- settle (V1.localDescriptionsSearch server ids o);; ret tt
  end.

Fixpoint run_calls_v1 (server : nat -> request -> http_outcome) (cs : list src_call)
  : M unit :=
  match cs with
  | [] => ret tt
  | c :: cs' => run_call_v1 server c;; run_calls_v1 server cs'
  end.

(** A public call on the second src/src class, its outcome discarded. *)
Definition run_call_v2 (server : nat -> request -> http_outcome) (c : src_call)
  : M unit :=
  match c with
  | SrcWebSearch q o => _ <- settle (webSearch server q o);; ret tt
  | SrcSummarizedAnswer q o so =>
      _ <- settle (getSummarizedAnswer server q o so);; ret tt
  | SrcLocalPoiSearch ids o => _ <- settle (V2.localPoiSearch server ids o);; ret tt
  | SrcLocalDescriptionsSearch ids o =>
      _ <- settle (V2.localDescriptionsSearch server ids o);; ret tt
  end.

Fixpoint run_calls_v2 (server : nat -> request -> http_outcome) (cs : list src_call)
  : M unit :=
  match cs with
  | [] => ret tt
  | c :: cs' => run_call_v2 server c;; run_calls_v2 server cs'
  end.

(** [s.includes(sub)] *)
Fixpoint string_includes (s sub : string) : bool :=
  String.prefix sub s
  || match s with
     | EmptyString => false
     | String _ s' => string_includes s' sub
     end.

(** [URLSearchParams.prototype.set]: replace the first pair named [k],
    drop the later ones, or append. *)
Fixpoint usp_set (l : list (string * string)) (k v : string)
  : list (string * string) :=
  match l with
  | [] => [(k, v)]
  | (k', v') :: l' =>
      if String.eqb k k'
      then (k, v) :: filter (fun p => negb (String.eqb (fst p) k)) l'
      else (k', v') :: usp_set l' k v
  end.

(** First class of part_002: the 422 retry of webSearch. *)
Module V3.

Definition retry_phrase : string :=
  "Retrying with modified 'result_filter' option in request".

Definition widened_result_filter : string :=
  "discussions,faq,news,query,summarizer,videos,web,infobox".

(** handleApiError with its 422 branch and its [console.warn]. *)
Definition handleApiError (error : thrown) : M BraveSearchError :=
  match error with
  | ThrownAxios status data msg =>
      let message := api_message data msg in
      let responseData := data in
      if status_is status 429 then
        ret (mkError ("Rate limit exceeded: " ++ message) responseData)
      else if status_is status 401 then
        ret (mkError ("Authentication error: " ++ message) responseData)
      else if status_is status 422 then
        emit (Warn ("Received 422 error, possibly related to brave server error. "
                    ++ retry_phrase ++ "."));;
        ret (mkError ("API error (" ++ status_string status ++ "): " ++ message
                      ++ ". " ++ retry_phrase ++ ".") responseData)
      else
        ret (mkError ("API error (" ++ status_string status ++ "): " ++ message)
                     responseData)
  | ThrownError msg => ret (mkError ("Unexpected error: " ++ msg) None)
  end.

Definition thrown_of (o : http_outcome) : thrown :=
  match o with
  | AxiosFail st d m => ThrownAxios st d m
  | OtherFail m => ThrownError m
  | Ok200 _ => ThrownError "undefined"   (* not reached: only failures are caught *)
  end.

Section WebSearch.

Variable server : nat -> request -> http_outcome.

Definition webSearch (query : string) (options : list (string * option prim))
  : M json :=
  let params := webSearch_params query options in
  s <- get_self;;
  headers <- getHeaders;;
  o <- axios_get server (mkRequest (baseUrl s ++ "/web/search") params headers);;
  match o with
  | Ok200 data => ret data
  | _ =>
      handledError <- handleApiError (thrown_of o);;
      if string_includes (message handledError) retry_phrase then
        let modifiedParams := usp_set params "result_filter" widened_result_filter in
        headers' <- getHeaders;;
        o' <- axios_get server
                (mkRequest (baseUrl s ++ "/web/search") modifiedParams headers');;
        match o' with
        | Ok200 data => ret data
        | _ => retryError <- handleApiError (thrown_of o');; throw retryError
        end
      else throw handledError
  end.

End WebSearch.

End V3.

(** ** Run equations *)

Definition headers_of (s : BraveSearch) : list (string * string) :=
  [("Accept", "application/json"); ("Accept-Encoding", "gzip");
   ("X-Subscription-Token", apiKey s)].

Definition summarizer_request (s : BraveSearch) (key : string)
  (options : list (string * option prim)) : request :=
  mkRequest (baseUrl s ++ "/summarizer/search")
            (summarizerSearch_params key options) (headers_of s).

Definition web_request (s : BraveSearch) (query : string)
  (options : list (string * option prim)) : request :=
  mkRequest (baseUrl s ++ "/web/search") (webSearch_params query options)
            (headers_of s).

(** The events of one unfinished poll attempt. *)
Definition poll_block (s : BraveSearch) (key : string)
  (options : list (string * option prim)) : list event :=
  [Get (summarizer_request s key options); Sleep (pollInterval s)].

(** [str.split(c)] *)
Fixpoint split_on (c : ascii) (s : string) : list string :=
  match s with
  | EmptyString => [""]
  | String a s' =>
      if Ascii.eqb a c then "" :: split_on c s'
      else match split_on c s' with
           | [] => [String a ""]
           | x :: r => String a x :: r
           end
  end.

(** [!str.includes(c)] for one character. *)
Fixpoint no_char (c : ascii) (s : string) : bool :=
  match s with
  | EmptyString => true
  | String a s' => negb (Ascii.eqb a c) && no_char c s'
  end.

(** The endpoint paths under the base URL. *)
Definition endpoint_paths : list string :=
  ["/web/search"; "/summarizer/search"; "/local/pois"; "/local/descriptions"].

(** A request as the client [s] sends it: its three headers, under its
    base URL, on one of the endpoints. *)
Definition request_ok (s : BraveSearch) (r : request) : Prop :=
  req_headers r = headers_of s /\
  exists path, In path endpoint_paths /\ req_url r = (baseUrl s ++ path)%string.

Definition event_ok (s : BraveSearch) (ev : event) : Prop :=
  match ev with Get r => request_ok s r | _ => True end.

(** [m] only appends events and all the requests it sends are well formed. *)
Definition appends_ok {A} (m : M A) : Prop :=
  forall w, self (snd (m w)) = self w /\
            exists l, trace (snd (m w)) = trace w ++ l /\
                      Forall (event_ok (self w)) l.

Definition warn_422 : string :=
  "Received 422 error, possibly related to brave server error. "
  ++ V3.retry_phrase ++ ".".

(** A summarizer-lookup outcome that the loop neither returns nor fails on. *)
Definition nonterminal (o : http_outcome) : bool :=
  match o with
  | Ok200 d => negb (complete_with_summary d) && negb (status_failed d)
  | _ => false
  end.

(** The [for] loop of pollForSummary, the same text in every class, with
    its [await this.summarizerSearch(key, options)] as the parameter
    [lookup]. *)
Fixpoint poll_with (lookup : M json) (fuel attempt : nat) : M json :=
  match fuel with
  | O => throw summary_exhausted_error
  | S fuel' =>
      s <- get_self;;
      if Z.ltb (Z.of_nat attempt) (maxPollAttempts s) then
        summaryResponse <- lookup;;
        if complete_with_summary summaryResponse then ret summaryResponse
        else if status_failed summaryResponse then throw summary_failed_error
        else
          sleep (pollInterval s);;
          poll_with lookup fuel' (S attempt)
      else throw summary_exhausted_error
  end.

(** How a poll [p] run from [w] with lookup request [r] uses the network:
    it sends only [r], waits [ms] after each lookup but possibly the last,
    and sends at most [n] lookups; when no answer is terminal it sends
    exactly [n], each followed by a wait of [ms], and then rejects with the
    exhaustion error. *)
Definition polling_behaviour (server : nat -> request -> http_outcome)
  (p : M json) (w : world) (r : request) (n : nat) (ms : Z) : Prop :=
  (exists k tail,
     trace (snd (p w)) = trace w ++ concat (repeat [Get r; Sleep ms] k) ++ tail /\
     (tail = [] \/ tail = [Get r]) /\
     k + count_gets tail <= n) /\
  ((forall j, nonterminal (server (count_gets (trace w) + j) r) = true) ->
   p w = (Err summary_exhausted_error,
          mkWorld (self w) (trace w ++ concat (repeat [Get r; Sleep ms] n)))).

(** ** Concrete inputs *)

Definition client0 : BraveSearch := new_BraveSearch "api-key" None.
Definition world0 : world := mkWorld client0 [].

(** [status: "complete"] without a [summary] field yet. *)
Definition pending_response : json :=
  JObj [("type", JStr "summarizer"); ("status", JStr "complete")].

Definition empty_summary_response : json :=
  JObj [("type", JStr "summarizer"); ("status", JStr "complete");
        ("summary", JArr [])].

Definition full_summary_response : json :=
  JObj [("type", JStr "summarizer"); ("status", JStr "complete");
        ("summary", JArr [JObj [("type", JStr "token");
                                ("data", JStr "About 100 billion stars")]])].

Definition failed_response : json :=
  JObj [("type", JStr "summarizer"); ("status", JStr "failed")].

Definition web_response_with_key : json :=
  JObj [("type", JStr "search");
        ("summarizer", JObj [("type", JStr "summarizer"); ("key", JStr "k1")])].

Definition web_response_without_key : json :=
  JObj [("type", JStr "search")].

Definition sample_options : list (string * option prim) :=
  [("country", Some (PStr "US")); ("count", None);
   ("spellcheck", Some (PBool false)); ("offset", Some (PNum 0));
   ("goggles_id", Some (PStr "")); ("summary", None)].

(** ** Public calls on one client *)

Inductive call : Type :=
| CallWebSearch (query : string) (options : list (string * option prim))
| CallSummarizedAnswer (query : string)
    (options summarizerOptions : list (string * option prim))
| CallLocalPoiSearch (ids : list string)
| CallLocalDescriptionsSearch (ids : list string).

(** A public call, its outcome discarded. *)
Definition run_call (server : nat -> request -> http_outcome) (c : call) : M unit :=
  match c with
  | CallWebSearch q o => _ <- settle (webSearch server q o);; ret tt
  | CallSummarizedAnswer q o so =>
      _ <- settle (getSummarizedAnswer server q o so);; ret tt
  | CallLocalPoiSearch ids => _ <- settle (localPoiSearch server ids);; ret tt
  | CallLocalDescriptionsSearch ids =>
      _ <- settle (localDescriptionsSearch server ids);; ret tt
  end.

Fixpoint run_calls (server : nat -> request -> http_outcome) (cs : list call)
  : M unit :=
  match cs with
  | [] => ret tt
  | c :: cs' => run_call server c;; run_calls server cs'
  end.

(** A computation that leaves [this] as it found it. *)
Definition keeps_self {A} (m : M A) : Prop :=
  forall w, self (snd (m w)) = self w.

(** An error outcome classified as a rate limit and carrying [data]. *)
Definition rate_limited {A} (r : result A) (data : option json) : Prop :=
  exists e, r = Err e /\
            string_includes (message e) "Rate limit exceeded" = true /\
            responseData e = data.

Definition rate_limit_server (data : option json) (msg : string)
  : nat -> request -> http_outcome :=
  fun _ _ => AxiosFail (Some 429%Z) data msg.

Definition rate_limit_body : json :=
  JObj [("type", JStr "ErrorResponse");
        ("message", JStr "Request rate limit exceeded for plan")].

(** The first answer is an HTTP 500 whose body message contains the
    retry phrase; the second a regular search response. *)
Definition phrase_server : nat -> request -> http_outcome :=
  fun i _ =>
    if Nat.eqb i 0 then
      AxiosFail (Some 500%Z) (Some (JObj [("message", JStr V3.retry_phrase)]))
                "Request failed with status code 500"
    else Ok200 web_response_without_key.

Definition unprocessable_server : nat -> request -> http_outcome :=
  fun _ _ => AxiosFail (Some 422%Z) (Some (JObj [("message", JStr "Unable to validate request parameter(s)")]))
                       "Request failed with status code 422".

(** The defined entries of an options bag, rendered: what formatOptions
    keeps. *)
Definition defined_entries (options : list (string * option prim))
  : list (string * string) :=
  flat_map (fun '(k, v) => match v with
                           | Some p => [(k, prim_toString p)]
                           | None => []
                           end) options.

Lemma count_gets_app (t l : list event) :
  count_gets (t ++ l) = count_gets t + count_gets l.
Proof. unfold count_gets. now rewrite filter_app, length_app. Qed.

Lemma count_gets_blocks (s : BraveSearch) key options (m : nat) :
  count_gets (concat (repeat (poll_block s key options) m)) = m.
Proof.
  induction m as [|m IH]; [reflexivity|].
  simpl repeat. rewrite concat_cons, count_gets_app, IH. reflexivity.
Qed.

Lemma get_data_run server path params w :
  get_data server path params w =
  let r := mkRequest (baseUrl (self w) ++ path) params (headers_of (self w)) in
  let w' := mkWorld (self w) (trace w ++ [Get r]) in
  match server (count_gets (trace w)) r with
  | Ok200 d => (Ok d, w')
  | AxiosFail st d m => (Err (handleApiError (ThrownAxios st d m)), w')
  | OtherFail m => (Err (handleApiError (ThrownError m)), w')
  end.
Proof.
  unfold get_data, getHeaders, axios_get, bind, get_self, ret, throw; simpl.
  destruct (server _ _); reflexivity.
Qed.

Lemma poll_loop_step server f a key options w :
  (Z.of_nat a < maxPollAttempts (self w))%Z ->
  poll_loop server (S f) a key options w =
  let r := summarizer_request (self w) key options in
  let w' := mkWorld (self w) (trace w ++ [Get r]) in
  match server (count_gets (trace w)) r with
  | Ok200 d =>
      if complete_with_summary d then (Ok d, w')
      else if status_failed d then (Err summary_failed_error, w')
      else poll_loop server f (S a) key options
             (mkWorld (self w) (trace w' ++ [Sleep (pollInterval (self w))]))
  | AxiosFail st d m => (Err (handleApiError (ThrownAxios st d m)), w')
  | OtherFail m => (Err (handleApiError (ThrownError m)), w')
  end.
Proof.
  intros Ha. cbn [poll_loop]. unfold bind at 1, get_self.
  rewrite (proj2 (Z.ltb_lt _ _) Ha). unfold bind at 1.
  unfold summarizerSearch. rewrite get_data_run. simpl.
  destruct (server _ _) as [d|st d m|m]; try reflexivity.
  destruct (complete_with_summary d), (status_failed d); reflexivity.
Qed.

Lemma poll_loop_prefix server key options (m : nat) :
  forall f a w,
  m <= f ->
  (Z.of_nat (a + m) <= maxPollAttempts (self w))%Z ->
  (forall j, j < m ->
     nonterminal (server (count_gets (trace w) + j)
                         (summarizer_request (self w) key options)) = true) ->
  poll_loop server f a key options w =
  poll_loop server (f - m) (a + m) key options
    (mkWorld (self w)
       (trace w ++ concat (repeat (poll_block (self w) key options) m))).
Proof.
  induction m as [|m IH]; intros f a w Hf Ha Hn.
  - rewrite Nat.sub_0_r, Nat.add_0_r, app_nil_r. destruct w; reflexivity.
  - destruct f as [|f]; [lia|].
    rewrite poll_loop_step by lia. cbv zeta.
    pose proof (Hn 0 ltac:(lia)) as H0. rewrite Nat.add_0_r in H0.
    destruct (server _ _) as [d|st d msg|msg]; try discriminate.
    simpl in H0. apply andb_prop in H0 as [H1 H2].
    apply negb_true_iff in H1, H2. rewrite H1, H2.
    rewrite IH; simpl.
    + replace (f - m) with (S f - S m) by lia.
      replace (S (a + m)) with (a + S m) by lia.
      rewrite <- !app_assoc. reflexivity.
    + lia.
    + lia.
    + intros j Hj. rewrite !count_gets_app.
      change (count_gets [Get (summarizer_request (self w) key options)]) with 1.
      change (count_gets [Sleep (pollInterval (self w))]) with 0.
      replace (count_gets (trace w) + 1 + 0 + j) with (count_gets (trace w) + S j)
        by lia.
      apply Hn. lia.
Qed.

Lemma poll_loop_exhausted server f a key options w :
  (maxPollAttempts (self w) <= Z.of_nat a)%Z ->
  poll_loop server f a key options w = (Err summary_exhausted_error, w).
Proof.
  intros Ha. destruct f as [|f]; [reflexivity|].
  cbn [poll_loop]. unfold bind at 1, get_self.
  destruct (Z.ltb_spec (Z.of_nat a) (maxPollAttempts (self w))); [lia|].
  reflexivity.
Qed.

Lemma webSearch_run server query options w :
  webSearch server query options w =
  let r := web_request (self w) query options in
  let w' := mkWorld (self w) (trace w ++ [Get r]) in
  match server (count_gets (trace w)) r with
  | Ok200 d => (Ok d, w')
  | AxiosFail st d m => (Err (handleApiError (ThrownAxios st d m)), w')
  | OtherFail m => (Err (handleApiError (ThrownError m)), w')
  end.
Proof. unfold webSearch. now rewrite get_data_run. Qed.

Lemma getSummarizedAnswer_run_ok server query options sopts w d :
  server (count_gets (trace w)) (web_request (self w) query options) = Ok200 d ->
  let w1 := mkWorld (self w) (trace w ++ [Get (web_request (self w) query options)]) in
  let summarizerKey := get_field (get_field (Some d) "summarizer") "key" in
  getSummarizedAnswer server query options sopts w =
  if truthy summarizerKey then
    let (r, w2) := pollForSummary server (js_string_opt summarizerKey) sopts w1 in
    (Ok (Ok d, match r with Ok p => Ok (Some p) | Err e => Err e end), w2)
  else (Ok (Ok d, Ok None), w1).
Proof.
  intros E. unfold getSummarizedAnswer, settle, bind at 1.
  rewrite webSearch_run. cbv zeta. rewrite E.
  unfold bind, ret. destruct (truthy _); [|reflexivity].
  destruct (pollForSummary _ _ _ _) as [[p|e] w2]; reflexivity.
Qed.

Lemma pollForSummary_prefix server key options w k :
  (Z.of_nat k < maxPollAttempts (self w))%Z ->
  (forall j, j < k ->
     nonterminal (server (count_gets (trace w) + j)
                         (summarizer_request (self w) key options)) = true) ->
  pollForSummary server key options w =
  poll_loop server (S (Z.to_nat (maxPollAttempts (self w))) - k) k key options
    (mkWorld (self w)
       (trace w ++ concat (repeat (poll_block (self w) key options) k))).
Proof.
  intros Hk Hn. unfold pollForSummary, bind, get_self.
  rewrite (poll_loop_prefix server key options k) by (simpl; lia || auto).
  reflexivity.
Qed.

(** ** Summary poller *)

(** C1 as stated fails: a "complete" answer whose summary is the empty
    array is not terminal in the claim's sense, yet pollForSummary returns
    it after one lookup instead of exhausting its budget. *)
Lemma pollForSummary_complete_empty_ends_poll :
  get_field (Some empty_summary_response) "status" = Some (JStr "complete") /\
  get_field (Some empty_summary_response) "summary" = Some (JArr []) /\
  pollForSummary (fun _ _ => Ok200 empty_summary_response) "k1" [] world0 =
  (Ok empty_summary_response,
   mkWorld client0 [Get (summarizer_request client0 "k1" [])]).
Proof. split; [reflexivity|split; [reflexivity|vm_compute; reflexivity]]. Qed.

(** C1 (amended): when every lookup succeeds with an answer that is
    neither "failed" nor "complete" with a [summary] field present (an
    array, even empty, counts as present), pollForSummary issues exactly
    [maxPollAttempts] lookups (none if it is not positive), each followed
    by one wait, and then rejects with the exhaustion error; no further
    lookup. *)
Theorem pollForSummary_exhausts_after_max_attempts server key options w :
  (forall j, nonterminal (server (count_gets (trace w) + j)
                                 (summarizer_request (self w) key options)) = true) ->
  let N := Z.to_nat (maxPollAttempts (self w)) in
  fst (pollForSummary server key options w) = Err summary_exhausted_error /\
  trace (snd (pollForSummary server key options w)) =
    trace w ++ concat (repeat (poll_block (self w) key options) N) /\
  count_gets (trace (snd (pollForSummary server key options w))) =
    count_gets (trace w) + N.
Proof.
  intros Hn N.
  assert (E : pollForSummary server key options w =
              (Err summary_exhausted_error,
               mkWorld (self w)
                 (trace w ++ concat (repeat (poll_block (self w) key options) N)))).
  { unfold pollForSummary, bind, get_self.
    destruct (Z.leb_spec (maxPollAttempts (self w)) 0) as [Hle|Hgt].
    - subst N. replace (Z.to_nat (maxPollAttempts (self w))) with 0 by lia.
      rewrite poll_loop_exhausted by (simpl; lia). simpl. rewrite app_nil_r.
      destruct w; reflexivity.
    - rewrite (poll_loop_prefix server key options N) by (subst N; simpl; auto; lia).
      rewrite poll_loop_exhausted by (simpl; subst N; lia). reflexivity. }
  rewrite E. simpl. split; [reflexivity|split; [reflexivity|]].
  rewrite count_gets_app, count_gets_blocks. reflexivity.
Qed.

Lemma C1_witness :
  (forall j, nonterminal ((fun _ _ => Ok200 pending_response) (count_gets (trace world0) + j)
               (summarizer_request (self world0) "k1" [])) = true) /\
  fst (pollForSummary (fun _ _ => Ok200 pending_response) "k1" [] world0)
    = Err summary_exhausted_error /\
  count_gets (trace (snd (pollForSummary (fun _ _ => Ok200 pending_response) "k1" [] world0)))
    = 20.
Proof.
  assert (H : forall j, nonterminal ((fun _ _ => Ok200 pending_response)
                 (count_gets (trace world0) + j)
                 (summarizer_request (self world0) "k1" [])) = true)
    by (intros; reflexivity).
  pose proof (pollForSummary_exhausts_after_max_attempts
                (fun _ _ => Ok200 pending_response) "k1" [] world0 H) as [H1 [_ H3]].
  split; [exact H|split; [exact H1|]]. rewrite H3. reflexivity.
Defined.

(** C2 as stated fails: a "complete" response whose summary is the empty
    array is returned at once, after one lookup, instead of polling on. *)
Lemma pollForSummary_returns_empty_summary :
  pollForSummary (fun _ _ => Ok200 empty_summary_response) "k1" [] world0 =
  (Ok empty_summary_response,
   mkWorld client0 [Get (summarizer_request client0 "k1" [])]).
Proof. vm_compute. reflexivity. Qed.

(** C2 (amended): the first response within the budget whose status is
    "complete" and which carries a [summary] array (of any length) is
    returned as it is, after [k] unfinished attempts and its own lookup;
    responses before it ("complete" without a summary field included)
    are non-terminal. *)
Theorem pollForSummary_returns_first_complete server key options w k d msgs :
  (Z.of_nat k < maxPollAttempts (self w))%Z ->
  (forall j, j < k ->
     nonterminal (server (count_gets (trace w) + j)
                         (summarizer_request (self w) key options)) = true) ->
  server (count_gets (trace w) + k) (summarizer_request (self w) key options)
    = Ok200 d ->
  get_field (Some d) "status" = Some (JStr "complete") ->
  get_field (Some d) "summary" = Some (JArr msgs) ->
  pollForSummary server key options w =
  (Ok d, mkWorld (self w)
           (trace w ++ concat (repeat (poll_block (self w) key options) k)
                    ++ [Get (summarizer_request (self w) key options)])).
Proof.
  intros Hk Hn Hd Hs Hm.
  rewrite (pollForSummary_prefix server key options w k Hk Hn).
  replace (S (Z.to_nat (maxPollAttempts (self w))) - k)
    with (S (Z.to_nat (maxPollAttempts (self w)) - k)) by lia.
  rewrite poll_loop_step by (simpl; lia). cbv zeta. simpl self; simpl trace.
  rewrite count_gets_app, count_gets_blocks, Hd.
  unfold complete_with_summary. rewrite Hs, Hm. simpl.
  rewrite <- app_assoc. reflexivity.
Qed.

Lemma C2_witness :
  pollForSummary
    (fun i _ => if Nat.eqb i 2 then Ok200 full_summary_response
                else Ok200 pending_response) "k1" [] world0 =
  (Ok full_summary_response,
   mkWorld client0 (concat (repeat (poll_block client0 "k1" []) 2)
                      ++ [Get (summarizer_request client0 "k1" [])])).
Proof.
  apply (pollForSummary_returns_first_complete _ "k1" [] world0 2
           full_summary_response
           [JObj [("type", JStr "token"); ("data", JStr "About 100 billion stars")]]).
  - vm_compute. reflexivity.
  - intros j Hj. destruct j as [|[|]]; [reflexivity|reflexivity|lia].
  - reflexivity.
  - reflexivity.
  - reflexivity.
Defined.

(** C3: the first "failed" response within the budget rejects the poll
    with "Summary generation failed" right after its lookup: no further
    lookup and no wait, whatever budget is left. *)
Theorem pollForSummary_stops_on_failed server key options w k d :
  (Z.of_nat k < maxPollAttempts (self w))%Z ->
  (forall j, j < k ->
     nonterminal (server (count_gets (trace w) + j)
                         (summarizer_request (self w) key options)) = true) ->
  server (count_gets (trace w) + k) (summarizer_request (self w) key options)
    = Ok200 d ->
  get_field (Some d) "status" = Some (JStr "failed") ->
  pollForSummary server key options w =
  (Err summary_failed_error,
   mkWorld (self w)
     (trace w ++ concat (repeat (poll_block (self w) key options) k)
              ++ [Get (summarizer_request (self w) key options)])).
Proof.
  intros Hk Hn Hd Hs.
  rewrite (pollForSummary_prefix server key options w k Hk Hn).
  replace (S (Z.to_nat (maxPollAttempts (self w))) - k)
    with (S (Z.to_nat (maxPollAttempts (self w)) - k)) by lia.
  rewrite poll_loop_step by (simpl; lia). cbv zeta. simpl self; simpl trace.
  rewrite count_gets_app, count_gets_blocks, Hd.
  unfold complete_with_summary, status_failed. rewrite Hs. simpl.
  rewrite <- app_assoc. reflexivity.
Qed.

Lemma C3_witness :
  pollForSummary
    (fun i _ => if Nat.eqb i 1 then Ok200 failed_response
                else Ok200 pending_response) "k1" [] world0 =
  (Err summary_failed_error,
   mkWorld client0 (concat (repeat (poll_block client0 "k1" []) 1)
                      ++ [Get (summarizer_request client0 "k1" [])])).
Proof.
  apply (pollForSummary_stops_on_failed _ "k1" [] world0 1 failed_response).
  - vm_compute. reflexivity.
  - intros j Hj. destruct j as [|]; [reflexivity|lia].
  - reflexivity.
  - reflexivity.
Defined.

(** C10: with [maxPollAttempts <= 0], pollForSummary rejects with the
    exhaustion error without any lookup; a summarized search whose web
    response carries a summarizer key gets that rejection as its summary
    outcome, the web search being the only request. *)
Theorem pollForSummary_nonpositive_budget server query options sopts w d :
  (maxPollAttempts (self w) <= 0)%Z ->
  server (count_gets (trace w)) (web_request (self w) query options) = Ok200 d ->
  truthy (get_field (get_field (Some d) "summarizer") "key") = true ->
  (forall key, pollForSummary server key sopts w = (Err summary_exhausted_error, w)) /\
  getSummarizedAnswer server query options sopts w =
  (Ok (Ok d, Err summary_exhausted_error),
   mkWorld (self w) (trace w ++ [Get (web_request (self w) query options)])).
Proof.
  intros Hmax Hd Hk.
  assert (P : forall key w', self w' = self w ->
                pollForSummary server key sopts w' = (Err summary_exhausted_error, w')).
  { intros key w' Hs. unfold pollForSummary, bind, get_self.
    apply poll_loop_exhausted. simpl. rewrite Hs. lia. }
  split; [intros key; now apply P|].
  rewrite (getSummarizedAnswer_run_ok server query options sopts w d Hd).
  cbv zeta. rewrite Hk. rewrite P by reflexivity. reflexivity.
Qed.

Lemma C10_witness :
  getSummarizedAnswer (fun _ _ => Ok200 web_response_with_key) "stars" [] []
    (mkWorld (new_BraveSearch "api-key"
                (Some (mkPollingOptions None (Some 0%Z)))) []) =
  (Ok (Ok web_response_with_key, Err summary_exhausted_error),
   mkWorld (new_BraveSearch "api-key" (Some (mkPollingOptions None (Some 0%Z))))
     [Get (web_request (new_BraveSearch "api-key"
                          (Some (mkPollingOptions None (Some 0%Z)))) "stars" [])]).
Proof.
  apply (pollForSummary_nonpositive_budget
           (fun _ _ => Ok200 web_response_with_key) "stars" [] []
           (mkWorld (new_BraveSearch "api-key"
                       (Some (mkPollingOptions None (Some 0%Z)))) [])
           web_response_with_key).
  - simpl. lia.
  - reflexivity.
  - reflexivity.
Defined.

(** ** Summarized search *)

(** C5: when the web search response has no [summarizer.key], the summary
    outcome of getSummarizedAnswer is [undefined], with the web search as
    the only request and no wait. *)
Theorem getSummarizedAnswer_without_key server query options sopts w d :
  server (count_gets (trace w)) (web_request (self w) query options) = Ok200 d ->
  get_field (get_field (Some d) "summarizer") "key" = None ->
  getSummarizedAnswer server query options sopts w =
  (Ok (Ok d, Ok None),
   mkWorld (self w) (trace w ++ [Get (web_request (self w) query options)])).
Proof.
  intros Hd Hk.
  rewrite (getSummarizedAnswer_run_ok server query options sopts w d Hd).
  cbv zeta. rewrite Hk. reflexivity.
Qed.

Lemma C5_witness :
  getSummarizedAnswer (fun _ _ => Ok200 web_response_without_key) "stars" [] []
    world0 =
  (Ok (Ok web_response_without_key, Ok None),
   mkWorld client0 [Get (web_request client0 "stars" [])]).
Proof.
  apply (getSummarizedAnswer_without_key
           (fun _ _ => Ok200 web_response_without_key) "stars" [] [] world0
           web_response_without_key); reflexivity.
Defined.

(** ** formatOptions and the outgoing parameters *)

Lemma obj_set_keys {A} (o : list (string * A)) k v x :
  In x (map fst (obj_set o k v)) <-> x = k \/ In x (map fst o).
Proof.
  induction o as [|[k' v'] o IH]; simpl; [intuition congruence|].
  destruct (String.eqb_spec k k'); simpl.
  - subst. intuition congruence.
  - rewrite IH. tauto.
Qed.

Lemma obj_set_NoDup {A} (o : list (string * A)) k v :
  NoDup (map fst o) -> NoDup (map fst (obj_set o k v)).
Proof.
  induction o as [|[k' v'] o IH]; simpl; intros H.
  - constructor; [simpl; tauto|constructor].
  - inversion H as [|? ? Hn Hd]; subst.
    destruct (String.eqb_spec k k'); simpl.
    + subst. now constructor.
    + constructor; [|now apply IH]. rewrite obj_set_keys. intuition.
Qed.

Lemma obj_set_same {A} (o : list (string * A)) k v : In (k, v) (obj_set o k v).
Proof.
  induction o as [|[k' v'] o IH]; simpl; [auto|].
  destruct (String.eqb_spec k k'); simpl; auto.
Qed.

Lemma obj_set_other {A} (o : list (string * A)) k v x y :
  x <> k -> In (x, y) o -> In (x, y) (obj_set o k v).
Proof.
  induction o as [|[k' v'] o IH]; simpl; intros Hx Hin; [contradiction|].
  destruct (String.eqb_spec k k'); simpl.
  - subst. destruct Hin as [E|Hin]; [inversion E; congruence|auto].
  - destruct Hin; auto.
Qed.

Lemma obj_spread_keys base rest x :
  In x (map fst (obj_spread base rest)) <->
  In x (map fst base) \/ In x (map fst rest).
Proof.
  revert base; induction rest as [|[k v] rest IH]; intros base; simpl.
  - tauto.
  - rewrite IH, obj_set_keys. intuition congruence.
Qed.

Lemma obj_spread_NoDup base rest :
  NoDup (map fst base) -> NoDup (map fst (obj_spread base rest)).
Proof.
  revert base; induction rest as [|[k v] rest IH]; intros base H; simpl; auto.
  apply IH, obj_set_NoDup, H.
Qed.

Lemma obj_spread_preserve base rest x y :
  ~ In x (map fst rest) -> In (x, y) base -> In (x, y) (obj_spread base rest).
Proof.
  revert base; induction rest as [|[k v] rest IH]; intros base Hn Hin; simpl; auto.
  simpl in Hn. apply IH; [tauto|]. apply obj_set_other; auto.
Qed.

Lemma obj_spread_value base rest x y :
  NoDup (map fst rest) -> In (x, y) rest -> In (x, y) (obj_spread base rest).
Proof.
  revert base; induction rest as [|[k v] rest IH]; intros base Hd Hin; simpl;
    [contradiction|].
  inversion Hd as [|? ? Hn Hd']; subst.
  destruct Hin as [E|Hin].
  - inversion E; subst. apply obj_spread_preserve; auto. apply obj_set_same.
  - apply IH; auto.
Qed.

Lemma formatOptions_spread (options : list (string * option prim)) :
  formatOptions options = obj_spread [] (defined_entries options).
Proof.
  unfold formatOptions, obj_spread. generalize (@nil (string * string)).
  induction options as [|[k [p|]] options IH]; intros acc; simpl; auto.
Qed.

Lemma defined_entries_keys options x :
  In x (map fst (defined_entries options)) <-> exists p, In (x, Some p) options.
Proof.
  induction options as [|[k [p|]] options IH]; simpl.
  - split; [contradiction|intros [p []]].
  - rewrite IH. split.
    + intros [E|[q Hq]]; [subst; eauto|eauto].
    + intros [q [E|Hq]]; [inversion E; auto|eauto].
  - rewrite IH. split.
    + intros [q Hq]; eauto.
    + intros [q [E|Hq]]; [discriminate|eauto].
Qed.

Lemma defined_entries_NoDup options :
  NoDup (map fst options) -> NoDup (map fst (defined_entries options)).
Proof.
  induction options as [|[k [p|]] options IH]; simpl; intros H; [constructor| |];
    inversion H as [|? ? Hn Hd]; subst.
  - constructor; [|auto]. rewrite defined_entries_keys. intros [q Hq].
    apply Hn, (in_map fst _ (k, Some q)), Hq.
  - auto.
Qed.

Lemma defined_entries_value options k p :
  In (k, Some p) options -> In (k, prim_toString p) (defined_entries options).
Proof.
  induction options as [|[k' [q|]] options IH]; simpl; intros H; [contradiction| |].
  - destruct H as [E|H]; [inversion E; auto|auto].
  - destruct H as [E|H]; [discriminate|auto].
Qed.

Lemma undefined_not_defined options k :
  NoDup (map fst options) -> In (k, None) options ->
  ~ In k (map fst (defined_entries options)).
Proof.
  intros Hd Hin. rewrite defined_entries_keys. intros [p Hp].
  induction options as [|[k' v'] options IH]; [contradiction|].
  inversion Hd as [|? ? Hn Hd']; subst. simpl in Hin, Hp.
  destruct Hin as [E|Hin]; destruct Hp as [E'|Hp].
  - congruence.
  - inversion E; subst. apply Hn, (in_map fst _ (k, Some p)), Hp.
  - inversion E'; subst. apply Hn, (in_map fst _ (k, None)), Hin.
  - auto.
Qed.

Lemma webSearch_params_keys query options x :
  In x (map fst (webSearch_params query options)) <->
  x = "q" \/ exists p, In (x, Some p) options.
Proof.
  unfold webSearch_params. rewrite obj_spread_keys, formatOptions_spread,
    obj_spread_keys, defined_entries_keys. simpl. intuition.
Qed.

Lemma webSearch_params_value query options k p :
  NoDup (map fst options) -> In (k, Some p) options ->
  In (k, prim_toString p) (webSearch_params query options).
Proof.
  intros Hd Hin. unfold webSearch_params.
  apply obj_spread_value.
  - rewrite formatOptions_spread. apply obj_spread_NoDup. constructor.
  - rewrite formatOptions_spread. apply obj_spread_value.
    + now apply defined_entries_NoDup.
    + now apply defined_entries_value.
Qed.

(** C6: for a [BraveSearchOptions] bag (distinct keys, all of them option
    keys of the type), a key whose value is [undefined] is absent from the
    outgoing web search parameters, and a key with a defined value is there
    with its [toString()]. *)
Theorem webSearch_params_undefined_omitted query options :
  NoDup (map fst options) ->
  Forall (fun kv => In (fst kv) brave_search_option_keys) options ->
  (forall k, In (k, None) options ->
     ~ In k (map fst (webSearch_params query options))) /\
  (forall k p, In (k, Some p) options ->
     In (k, prim_toString p) (webSearch_params query options)).
Proof.
  intros Hd Hk. split.
  - intros k Hin. rewrite webSearch_params_keys. intros [Eq|Hp].
    + subst. rewrite Forall_forall in Hk. pose proof (Hk _ Hin) as Hq.
      simpl in Hq. intuition discriminate.
    + revert Hp. rewrite <- defined_entries_keys.
      now apply undefined_not_defined.
  - intros k p Hin. now apply webSearch_params_value.
Qed.

Lemma C6_witness :
  ~ In "count" (map fst (webSearch_params "stars" sample_options)) /\
  In ("country", "US") (webSearch_params "stars" sample_options).
Proof.
  assert (Hd : NoDup (map fst sample_options)).
  { unfold sample_options; simpl.
    repeat constructor; simpl; intuition discriminate. }
  assert (Hk : Forall (fun kv => In (fst kv) brave_search_option_keys)
                 sample_options).
  { unfold sample_options.
    repeat apply Forall_cons; try apply Forall_nil; simpl; auto 20. }
  destruct (webSearch_params_undefined_omitted "stars" sample_options Hd Hk)
    as [H1 H2].
  split.
  - exact (H1 "count" ltac:(simpl; tauto)).
  - exact (H2 "country" (PStr "US") ltac:(simpl; tauto)).
Defined.

(** C9: defined but falsy values ([false], [0], [""]) are sent as
    "false", "0" and ""; a key is among the outgoing parameters exactly
    when it is the query key [q] or has a defined value. *)
Theorem webSearch_params_falsy_kept query options :
  NoDup (map fst options) ->
  (forall k, In (k, Some (PBool false)) options ->
     In (k, "false") (webSearch_params query options)) /\
  (forall k, In (k, Some (PNum 0)) options ->
     In (k, "0") (webSearch_params query options)) /\
  (forall k, In (k, Some (PStr "")) options ->
     In (k, "") (webSearch_params query options)) /\
  (forall k, In k (map fst (webSearch_params query options)) <->
     k = "q" \/ exists p, In (k, Some p) options).
Proof.
  intros Hd. split; [|split; [|split]].
  - intros k Hin. apply (webSearch_params_value query options k (PBool false) Hd Hin).
  - intros k Hin. apply (webSearch_params_value query options k (PNum 0) Hd Hin).
  - intros k Hin. apply (webSearch_params_value query options k (PStr "") Hd Hin).
  - intros k. apply webSearch_params_keys.
Qed.

Lemma C9_witness :
  In ("spellcheck", "false") (webSearch_params "stars" sample_options) /\
  In ("offset", "0") (webSearch_params "stars" sample_options) /\
  In ("goggles_id", "") (webSearch_params "stars" sample_options).
Proof.
  assert (Hd : NoDup (map fst sample_options)).
  { unfold sample_options; simpl.
    repeat constructor; simpl; intuition discriminate. }
  destruct (webSearch_params_falsy_kept "stars" sample_options Hd)
    as [H1 [H2 [H3 _]]].
  split; [|split].
  - exact (H1 "spellcheck" ltac:(simpl; tauto)).
  - exact (H2 "offset" ltac:(simpl; tauto)).
  - exact (H3 "goggles_id" ltac:(simpl; tauto)).
Defined.

(** ** Configuration *)

Create HintDb keeps.

Lemma keeps_ret {A} (a : A) : keeps_self (ret a).
Proof. intros w; reflexivity. Qed.

Lemma keeps_throw {A} e : keeps_self (@throw A e).
Proof. intros w; reflexivity. Qed.

Lemma keeps_get_self : keeps_self get_self.
Proof. intros w; reflexivity. Qed.

Lemma keeps_emit ev : keeps_self (emit ev).
Proof. intros w; reflexivity. Qed.

Lemma keeps_axios_get server r : keeps_self (axios_get server r).
Proof. intros w; reflexivity. Qed.

Lemma keeps_bind {A B} (m : M A) (k : A -> M B) :
  keeps_self m -> (forall a, keeps_self (k a)) -> keeps_self (bind m k).
Proof.
  intros Hm Hk w. unfold bind. specialize (Hm w).
  destruct (m w) as [[a|e] w']; simpl in *; [rewrite Hk|]; auto.
Qed.

Lemma keeps_settle {A} (m : M A) : keeps_self m -> keeps_self (settle m).
Proof. intros Hm w. unfold settle. specialize (Hm w). now destruct (m w). Qed.

#[local] Hint Resolve keeps_ret keeps_throw keeps_get_self keeps_emit
  keeps_axios_get keeps_settle : keeps.

Ltac keeps_tac :=
  repeat (cbv zeta; match goal with
  | |- keeps_self (bind _ _) => apply keeps_bind; intros
  | |- keeps_self (match ?x with _ => _ end) => destruct x
  | |- keeps_self (if ?b then _ else _) => destruct b
  | |- keeps_self (settle _) => apply keeps_settle
  | _ => solve [eauto with keeps]
  end).

Lemma keeps_get_data server path params : keeps_self (get_data server path params).
Proof. unfold get_data, getHeaders. keeps_tac. Qed.
#[local] Hint Resolve keeps_get_data : keeps.

Lemma keeps_poll_loop server f a key options :
  keeps_self (poll_loop server f a key options).
Proof.
  revert a; induction f as [|f IH]; intros a; simpl; [apply keeps_throw|].
  unfold summarizerSearch, sleep. keeps_tac.
Qed.
#[local] Hint Resolve keeps_poll_loop : keeps.

Lemma keeps_run_calls server cs : keeps_self (run_calls server cs).
Proof.
  induction cs as [|c cs IH]; simpl; [apply keeps_ret|].
  apply keeps_bind; [|intros; exact IH].
  destruct c; unfold run_call, webSearch, localPoiSearch,
    localDescriptionsSearch, getSummarizedAnswer, pollForSummary; keeps_tac.
Qed.

Lemma keeps_catch {A} (m : M A) h :
  keeps_self m -> (forall e, keeps_self (h e)) -> keeps_self (V1.catch m h).
Proof.
  intros Hm Hh w. unfold V1.catch. specialize (Hm w).
  destruct (m w) as [[a|e] w']; simpl in *; [exact Hm|]. now rewrite Hh.
Qed.

Lemma keeps_V1_get_data server path params :
  keeps_self (V1.get_data server path params).
Proof. unfold V1.get_data, getHeaders. keeps_tac. Qed.
#[local] Hint Resolve keeps_V1_get_data : keeps.

Lemma keeps_V1_poll_loop server f a key options :
  keeps_self (V1.poll_loop server f a key options).
Proof.
  revert a; induction f as [|f IH]; intros a; simpl; [apply keeps_throw|].
  unfold V1.summarizerSearch, sleep. keeps_tac.
Qed.
#[local] Hint Resolve keeps_V1_poll_loop : keeps.

Lemma keeps_run_calls_v1 server cs : keeps_self (run_calls_v1 server cs).
Proof.
  induction cs as [|c cs IH]; simpl; [apply keeps_ret|].
  apply keeps_bind; [|intros; exact IH].
  destruct c; unfold run_call_v1, V1.getSummarizedAnswer, V1.webSearch,
    V1.localPoiSearch, V1.localDescriptionsSearch, V1.pollForSummary;
    keeps_tac; apply keeps_catch; keeps_tac.
Qed.

Lemma keeps_run_calls_v2 server cs : keeps_self (run_calls_v2 server cs).
Proof.
  induction cs as [|c cs IH]; simpl; [apply keeps_ret|].
  apply keeps_bind; [|intros; exact IH].
  destruct c; unfold run_call_v2, getSummarizedAnswer, webSearch,
    V2.localPoiSearch, V2.localDescriptionsSearch, pollForSummary; keeps_tac.
Qed.

(** *** The polling loop, whatever its lookup *)

Section PollWith.

Variable server : nat -> request -> http_outcome.
Variable lookup : M json.
Variable req : BraveSearch -> request.

(** The lookup sends the one request [req this] and yields the body of a
    successful answer. *)
Hypothesis lookup_spec : forall w,
  snd (lookup w) = mkWorld (self w) (trace w ++ [Get (req (self w))]) /\
  (forall d, server (count_gets (trace w)) (req (self w)) = Ok200 d ->
             fst (lookup w) = Ok d).

Lemma poll_with_exhausted f a w :
  (maxPollAttempts (self w) <= Z.of_nat a)%Z ->
  poll_with lookup f a w = (Err summary_exhausted_error, w).
Proof.
  intros Ha. destruct f as [|f]; [reflexivity|].
  cbn [poll_with]. unfold bind at 1, get_self.
  destruct (Z.ltb_spec (Z.of_nat a) (maxPollAttempts (self w))); [lia|].
  reflexivity.
Qed.

Lemma poll_with_step f a w :
  (Z.of_nat a < maxPollAttempts (self w))%Z ->
  poll_with lookup (S f) a w =
  let w' := mkWorld (self w) (trace w ++ [Get (req (self w))]) in
  match fst (lookup w) with
  | Ok d =>
      if complete_with_summary d then (Ok d, w')
      else if status_failed d then (Err summary_failed_error, w')
      else poll_with lookup f (S a)
             (mkWorld (self w) (trace w' ++ [Sleep (pollInterval (self w))]))
  | Err e => (Err e, w')
  end.
Proof.
  intros Ha. cbn [poll_with]. unfold bind at 1, get_self.
  rewrite (proj2 (Z.ltb_lt _ _) Ha). unfold bind at 1.
  destruct (lookup_spec w) as [Hw _].
  destruct (lookup w) as [[d|e] w1]; simpl in Hw; subst w1; simpl; [|reflexivity].
  destruct (complete_with_summary d); [reflexivity|].
  destruct (status_failed d); reflexivity.
Qed.

Lemma poll_with_pending (m : nat) :
  forall f a w,
  m <= f ->
  (Z.of_nat (a + m) <= maxPollAttempts (self w))%Z ->
  (forall j, j < m ->
     nonterminal (server (count_gets (trace w) + j) (req (self w))) = true) ->
  poll_with lookup f a w =
  poll_with lookup (f - m) (a + m)
    (mkWorld (self w)
       (trace w ++ concat (repeat [Get (req (self w)); Sleep (pollInterval (self w))] m))).
Proof.
  induction m as [|m IH]; intros f a w Hf Ha Hn.
  - rewrite Nat.sub_0_r, Nat.add_0_r, app_nil_r. destruct w; reflexivity.
  - destruct f as [|f]; [lia|].
    rewrite poll_with_step by lia. cbv zeta.
    pose proof (Hn 0 ltac:(lia)) as H0. rewrite Nat.add_0_r in H0.
    destruct (server _ _) as [d|st d msg|msg] eqn:Hd; try discriminate.
    rewrite (proj2 (lookup_spec w) d Hd).
    simpl in H0. apply andb_prop in H0 as [H1 H2].
    apply negb_true_iff in H1, H2. rewrite H1, H2.
    rewrite IH; simpl.
    + replace (f - m) with (S f - S m) by lia.
      replace (S (a + m)) with (a + S m) by lia.
      rewrite <- !app_assoc. reflexivity.
    + lia.
    + lia.
    + intros j Hj. rewrite !count_gets_app.
      change (count_gets [Get (req (self w))]) with 1.
      change (count_gets [Sleep (pollInterval (self w))]) with 0.
      replace (count_gets (trace w) + 1 + 0 + j) with (count_gets (trace w) + S j)
        by lia.
      apply Hn. lia.
Qed.

Lemma poll_with_bounded f :
  forall a w,
  exists k tail,
    snd (poll_with lookup f a w) =
      mkWorld (self w)
        (trace w ++ concat (repeat [Get (req (self w)); Sleep (pollInterval (self w))] k)
                 ++ tail) /\
    (tail = [] \/ tail = [Get (req (self w))]) /\
    k + count_gets tail <= Z.to_nat (maxPollAttempts (self w)) - a.
Proof.
  induction f as [|f IH]; intros a w.
  - exists 0, []. simpl. rewrite app_nil_r. destruct w. split; [reflexivity|].
    split; [now left|]. change (count_gets []) with 0. lia.
  - destruct (Z.ltb_spec (Z.of_nat a) (maxPollAttempts (self w))) as [Ha|Ha].
    + rewrite poll_with_step by exact Ha. cbv zeta.
      destruct (fst (lookup w)) as [d|e].
      * destruct (complete_with_summary d); [|destruct (status_failed d)].
        1-2: exists 0, [Get (req (self w))]; repeat split; auto;
             change (count_gets [Get (req (self w))]) with 1; lia.
        destruct (IH (S a) (mkWorld (self w)
                  ((trace w ++ [Get (req (self w))])
                     ++ [Sleep (pollInterval (self w))])))
          as (k & tail & E & Ht & Hb).
        simpl self in *. simpl trace in E.
        exists (S k), tail. cbn [trace self]. rewrite E. repeat split; auto.
        -- simpl repeat. rewrite concat_cons. now rewrite <- !app_assoc.
        -- lia.
      * exists 0, [Get (req (self w))]. repeat split; auto.
        change (count_gets [Get (req (self w))]) with 1; lia.
    + exists 0, []. rewrite poll_with_exhausted by lia. simpl.
      rewrite app_nil_r. destruct w. repeat split; auto.
      change (count_gets []) with 0. lia.
Qed.

(** A poll started with a budget one above [maxPollAttempts] behaves as
    [polling_behaviour] says. *)
Lemma poll_with_behaviour w :
  polling_behaviour server
    (poll_with lookup (S (Z.to_nat (maxPollAttempts (self w)))) 0) w
    (req (self w)) (Z.to_nat (maxPollAttempts (self w))) (pollInterval (self w)).
Proof.
  set (N := Z.to_nat (maxPollAttempts (self w))). split.
  - destruct (poll_with_bounded (S N) 0 w) as (k & tail & E & Ht & Hb).
    exists k, tail. rewrite E. repeat split; auto. lia.
  - intros Hn.
    destruct (Z.leb_spec (maxPollAttempts (self w)) 0) as [Hle|Hgt].
    + assert (N = 0) as -> by (subst N; lia).
      rewrite poll_with_exhausted by (simpl; lia). simpl. rewrite app_nil_r.
      destruct w; reflexivity.
    + rewrite (poll_with_pending N) by (subst N; simpl; auto; lia).
      rewrite poll_with_exhausted by (simpl; subst N; lia). reflexivity.
Qed.

End PollWith.

Lemma poll_loop_as_poll_with server f a key options :
  poll_loop server f a key options =
  poll_with (summarizerSearch server key options) f a.
Proof.
  revert a; induction f as [|f IH]; intros a; [reflexivity|].
  cbn [poll_loop poll_with]. now rewrite IH.
Qed.

Lemma V1_poll_loop_as_poll_with server f a key options :
  V1.poll_loop server f a key options =
  poll_with (V1.summarizerSearch server key options) f a.
Proof.
  revert a; induction f as [|f IH]; intros a; [reflexivity|].
  cbn [V1.poll_loop poll_with]. now rewrite IH.
Qed.

Lemma pollForSummary_behaviour server key options w :
  polling_behaviour server (pollForSummary server key options) w
    (summarizer_request (self w) key options)
    (Z.to_nat (maxPollAttempts (self w))) (pollInterval (self w)).
Proof.
  assert (E : pollForSummary server key options w =
              poll_with (summarizerSearch server key options)
                (S (Z.to_nat (maxPollAttempts (self w)))) 0 w).
  { unfold pollForSummary, bind, get_self. now rewrite poll_loop_as_poll_with. }
  destruct (poll_with_behaviour server (summarizerSearch server key options)
              (fun s => summarizer_request s key options)) with (w := w)
    as [H1 H2].
  - intros w0. unfold summarizerSearch. rewrite get_data_run. cbv zeta.
    destruct (server _ _); split; try reflexivity; intros d' Hd'; try discriminate.
    injection Hd' as ->. reflexivity.
  - split; [rewrite E; exact H1|intros Hn; rewrite E; exact (H2 Hn)].
Qed.

Lemma V1_pollForSummary_behaviour server key options w :
  polling_behaviour server (V1.pollForSummary server key options) w
    (summarizer_request (self w) key options)
    (Z.to_nat (maxPollAttempts (self w))) (pollInterval (self w)).
Proof.
  assert (E : V1.pollForSummary server key options w =
              poll_with (V1.summarizerSearch server key options)
                (S (Z.to_nat (maxPollAttempts (self w)))) 0 w).
  { unfold V1.pollForSummary, bind, get_self. now rewrite V1_poll_loop_as_poll_with. }
  destruct (poll_with_behaviour server (V1.summarizerSearch server key options)
              (fun s => summarizer_request s key options)) with (w := w)
    as [H1 H2].
  - intros w0. unfold V1.summarizerSearch, V1.get_data, getHeaders, axios_get,
      bind, get_self, ret, throw. simpl.
    destruct (server _ _); split; try reflexivity; intros d' Hd'; try discriminate.
    injection Hd' as ->. reflexivity.
  - split; [rewrite E; exact H1|intros Hn; rewrite E; exact (H2 Hn)].
Qed.

(** C8 as stated fails on the older snapshots: without polling options the
    first src/src class allows 5 attempts and the classes computing
    DEFAULT_POLLING_TIMEOUT / pollInterval allow 40, not 20. *)
Lemma default_attempts_differ_in_snapshots :
  maxPollAttempts (V1.new_BraveSearch "api-key" None) = 5%Z /\
  maxPollAttempts (V2.new_BraveSearch "api-key" None) = 40%Z.
Proof. split; reflexivity. Qed.

(** C8 (amended): without polling options (none, or [{}]) the last
    part_002 class polls every 500 ms for at most 20 lookups (exactly 20
    when no answer is terminal), the first src/src class every 500 ms for
    at most 5, and the second src/src class, whose maxPollAttempts is
    DEFAULT_POLLING_TIMEOUT / pollInterval, every 500 ms for at most 40;
    in each of these classes no sequence of public calls changes the
    configuration of a client. *)
Theorem polling_defaults_and_immutable :
  (forall key o, o = None \/ o = Some (mkPollingOptions None None) ->
     pollInterval (new_BraveSearch key o) = 500%Z /\
     maxPollAttempts (new_BraveSearch key o) = 20%Z /\
     pollInterval (V1.new_BraveSearch key o) = 500%Z /\
     maxPollAttempts (V1.new_BraveSearch key o) = 5%Z /\
     pollInterval (V2.new_BraveSearch key o) = 500%Z /\
     maxPollAttempts (V2.new_BraveSearch key o) = 40%Z) /\
  (forall server apiKey o key sopts w,
     o = None \/ o = Some (mkPollingOptions None None) ->
     (self w = new_BraveSearch apiKey o ->
      polling_behaviour server (pollForSummary server key sopts) w
        (summarizer_request (self w) key sopts) 20 500) /\
     (self w = V1.new_BraveSearch apiKey o ->
      polling_behaviour server (V1.pollForSummary server key sopts) w
        (summarizer_request (self w) key sopts) 5 500) /\
     (self w = V2.new_BraveSearch apiKey o ->
      polling_behaviour server (pollForSummary server key sopts) w
        (summarizer_request (self w) key sopts) 40 500)) /\
  (forall server cs w, self (snd (run_calls server cs w)) = self w) /\
  (forall server cs w, self (snd (run_calls_v1 server cs w)) = self w) /\
  (forall server cs w, self (snd (run_calls_v2 server cs w)) = self w).
Proof.
  split; [|split; [|split; [|split]]].
  - intros key o [-> | ->]; repeat split.
  - intros server apiKey o key sopts w Ho.
    split; [|split]; intros Hs.
    + pose proof (pollForSummary_behaviour server key sopts w) as H.
      rewrite Hs in H at 2 3. destruct Ho as [-> | ->]; exact H.
    + pose proof (V1_pollForSummary_behaviour server key sopts w) as H.
      rewrite Hs in H at 2 3. destruct Ho as [-> | ->]; exact H.
    + pose proof (pollForSummary_behaviour server key sopts w) as H.
      rewrite Hs in H at 2 3. destruct Ho as [-> | ->]; exact H.
  - intros server cs w. apply keeps_run_calls.
  - intros server cs w. apply keeps_run_calls_v1.
  - intros server cs w. apply keeps_run_calls_v2.
Qed.

Lemma C8_witness :
  V1.pollForSummary (fun _ _ => Ok200 pending_response) "k1" []
    (mkWorld (V1.new_BraveSearch "api-key" None) []) =
  (Err summary_exhausted_error,
   mkWorld (V1.new_BraveSearch "api-key" None)
     (concat (repeat [Get (summarizer_request (V1.new_BraveSearch "api-key" None) "k1" []);
                      Sleep 500] 5))).
Proof.
  destruct polling_defaults_and_immutable as (_ & H & _).
  destruct (H (fun _ _ => Ok200 pending_response) "api-key" None "k1" []
              (mkWorld (V1.new_BraveSearch "api-key" None) []) (or_introl eq_refl))
    as (_ & H1 & _).
  apply (proj2 (H1 eq_refl)). intros j. reflexivity.
Defined.

(** ** HTTP 429 *)

Lemma rate_limit_message_includes m :
  string_includes ("Rate limit exceeded: " ++ m) "Rate limit exceeded" = true.
Proof. reflexivity. Qed.

Lemma handleApiError_429 {A} d m :
  rate_limited (A := A) (Err (handleApiError (ThrownAxios (Some 429%Z) d m))) d.
Proof.
  eexists; split; [reflexivity|]. split; [apply rate_limit_message_includes|reflexivity].
Qed.

(** C7 as stated fails on the first src/src class: its BraveSearchError
    has no [responseData], so the body of a 429 answer is not attached. *)
Lemma rate_limit_body_dropped_in_first_snapshot :
  responseData (V1.handleApiError
                  (ThrownAxios (Some 429%Z) (Some rate_limit_body)
                               "Request failed with status code 429"))
  <> Some rate_limit_body.
Proof. discriminate. Qed.

(** C7 (amended): in the snapshots whose BraveSearchError carries
    [responseData] (the last part_002 class, whose handleApiError is the
    same text as the second src/src class's, and the first part_002
    class), handleApiError turns an HTTP 429 failure into an error whose
    message contains "Rate limit exceeded" and whose [responseData] is the
    response body; in the last part_002 class a 429 on any request
    surfaces that error: from webSearch, localPoiSearch,
    localDescriptionsSearch, from the summary poll at any lookup within the
    budget, and from both outcomes of getSummarizedAnswer (its web search,
    or any of its summary lookups after a successful web search). *)
Theorem rate_limit_error_carries_body server w data msg :
  let E := handleApiError (ThrownAxios (Some 429%Z) data msg) in
  let n := count_gets (trace w) in
  let s := self w in
  rate_limited (A := unit) (Err E) data /\
  (exists e, V3.handleApiError (ThrownAxios (Some 429%Z) data msg) w = (Ok e, w) /\
             rate_limited (A := unit) (Err e) data) /\
  (forall query options,
     server n (web_request s query options) = AxiosFail (Some 429%Z) data msg ->
     fst (webSearch server query options w) = Err E /\
     forall sopts,
       fst (getSummarizedAnswer server query options sopts w) = Ok (Err E, Err E)) /\
  (forall ids,
     server n (mkRequest (baseUrl s ++ "/local/pois")
                 [("ids", String.concat "," ids)] (headers_of s))
       = AxiosFail (Some 429%Z) data msg ->
     fst (localPoiSearch server ids w) = Err E) /\
  (forall ids,
     server n (mkRequest (baseUrl s ++ "/local/descriptions")
                 [("ids", String.concat "," ids)] (headers_of s))
       = AxiosFail (Some 429%Z) data msg ->
     fst (localDescriptionsSearch server ids w) = Err E) /\
  (forall key sopts k,
     (Z.of_nat k < maxPollAttempts s)%Z ->
     (forall j, j < k ->
        nonterminal (server (n + j) (summarizer_request s key sopts)) = true) ->
     server (n + k) (summarizer_request s key sopts) = AxiosFail (Some 429%Z) data msg ->
     fst (pollForSummary server key sopts w) = Err E) /\
  (forall query options sopts d k,
     server n (web_request s query options) = Ok200 d ->
     truthy (get_field (get_field (Some d) "summarizer") "key") = true ->
     let key := js_string_opt (get_field (get_field (Some d) "summarizer") "key") in
     (Z.of_nat k < maxPollAttempts s)%Z ->
     (forall j, j < k ->
        nonterminal (server (S n + j) (summarizer_request s key sopts)) = true) ->
     server (S n + k) (summarizer_request s key sopts) = AxiosFail (Some 429%Z) data msg ->
     fst (getSummarizedAnswer server query options sopts w) = Ok (Ok d, Err E)).
Proof.
  cbv zeta.
  split; [apply handleApiError_429|].
  split; [eexists; split; [reflexivity|apply handleApiError_429]|].
  split; [|split; [|split; [|split]]].
  - intros query options Hs. split.
    + rewrite webSearch_run. cbv zeta. rewrite Hs. reflexivity.
    + intros sopts. unfold getSummarizedAnswer, settle, bind at 1.
      rewrite webSearch_run. cbv zeta. rewrite Hs. reflexivity.
  - intros ids Hs. unfold localPoiSearch. rewrite get_data_run. cbv zeta.
    rewrite Hs. reflexivity.
  - intros ids Hs. unfold localDescriptionsSearch. rewrite get_data_run. cbv zeta.
    rewrite Hs. reflexivity.
  - intros key sopts k Hk Hn Hs.
    rewrite (pollForSummary_prefix server key sopts w k Hk Hn).
    replace (S (Z.to_nat (maxPollAttempts (self w))) - k)
      with (S (Z.to_nat (maxPollAttempts (self w)) - k)) by lia.
    rewrite poll_loop_step by (simpl; lia). cbv zeta. simpl self; simpl trace.
    rewrite count_gets_app, count_gets_blocks, Hs. reflexivity.
  - intros query options sopts d k Hd Ht Hk Hn Hs.
    rewrite (getSummarizedAnswer_run_ok server query options sopts w d Hd).
    cbv zeta. rewrite Ht.
    set (key := js_string_opt (get_field (get_field (Some d) "summarizer") "key")) in *.
    set (w1 := mkWorld (self w) (trace w ++ [Get (web_request (self w) query options)])).
    assert (Hc : count_gets (trace w1) = S (count_gets (trace w))).
    { unfold w1. cbn [trace]. rewrite count_gets_app. change (count_gets [Get _]) with 1. lia. }
    assert (Hw1 : self w1 = self w) by reflexivity.
    rewrite (pollForSummary_prefix server key sopts w1 k).
    2: { rewrite Hw1. exact Hk. }
    2: { intros j Hj. rewrite Hc, Hw1. now apply Hn. }
    unfold w1. cbn [self trace].
    replace (S (Z.to_nat (maxPollAttempts (self w))) - k)
      with (S (Z.to_nat (maxPollAttempts (self w)) - k)) by lia.
    rewrite poll_loop_step by (simpl; lia). cbv zeta.
    cbn [self trace]. rewrite count_gets_app, count_gets_blocks.
    rewrite count_gets_app. change (count_gets [Get _]) with 1.
    replace (count_gets (trace w) + 1 + k) with (S (count_gets (trace w)) + k) by lia.
    rewrite Hs.
    reflexivity.
Qed.

Lemma C7_witness :
  fst (getSummarizedAnswer
         (fun i _ => if Nat.eqb i 0 then Ok200 web_response_with_key
                     else if Nat.eqb i 1 then Ok200 pending_response
                     else AxiosFail (Some 429%Z) (Some rate_limit_body)
                            "Request failed with status code 429")
         "stars" [] [] world0) =
  Ok (Ok web_response_with_key,
      Err (handleApiError (ThrownAxios (Some 429%Z) (Some rate_limit_body)
                             "Request failed with status code 429"))).
Proof.
  destruct (rate_limit_error_carries_body
              (fun i _ => if Nat.eqb i 0 then Ok200 web_response_with_key
                          else if Nat.eqb i 1 then Ok200 pending_response
                          else AxiosFail (Some 429%Z) (Some rate_limit_body)
                                 "Request failed with status code 429")
              world0 (Some rate_limit_body) "Request failed with status code 429")
    as (_ & _ & _ & _ & _ & _ & H).
  apply (H "stars" [] [] web_response_with_key 1).
  - reflexivity.
  - reflexivity.
  - vm_compute. reflexivity.
  - intros j Hj. destruct j as [|]; [reflexivity|lia].
  - reflexivity.
Defined.

(** ** The 422 retry of the part_002 first class *)

(** C4: the retry is keyed on the handled message containing the retry
    phrase, and that message embeds the server's own [message]: an HTTP
    500 whose body message contains the phrase is retried with the
    widened [result_filter], and the retry's answer is returned. *)
Theorem webSearch_retries_on_non_422_status :
  V3.webSearch phrase_server "stars" [] world0 =
  (Ok web_response_without_key,
   mkWorld client0
     [Get (web_request client0 "stars" []);
      Get (mkRequest (base_url ++ "/web/search")
             [("q", "stars"); ("result_filter", V3.widened_result_filter)]
             (headers_of client0))]).
Proof. vm_compute. reflexivity. Qed.

(** For an HTTP 422 the widened request is issued once and a second 422
    surfaces as the final error, with no third request. *)
Lemma webSearch_422_retried_once :
  V3.webSearch unprocessable_server "stars" [("result_filter", Some (PStr "web"))]
    world0 =
  (Err (mkError ("API error (422): Unable to validate request parameter(s). "
                 ++ V3.retry_phrase ++ ".")
                (Some (JObj [("message", JStr "Unable to validate request parameter(s)")]))),
   mkWorld client0
     [Get (web_request client0 "stars" [("result_filter", Some (PStr "web"))]);
      Warn ("Received 422 error, possibly related to brave server error. "
            ++ V3.retry_phrase ++ ".");
      Get (mkRequest (base_url ++ "/web/search")
             [("q", "stars"); ("result_filter", V3.widened_result_filter)]
             (headers_of client0));
      Warn ("Received 422 error, possibly related to brave server error. "
            ++ V3.retry_phrase ++ ".")]).
Proof. vm_compute. reflexivity. Qed.

(** * Further properties of the client *)

(** ** Identifier lists *)

Lemma split_on_no_char c a :
  no_char c a = true -> split_on c a = [a].
Proof.
  induction a as [|x a IH]; simpl; [reflexivity|].
  intros H. apply andb_prop in H as [H1 H2]. apply negb_true_iff in H1.
  rewrite H1, IH by exact H2. reflexivity.
Qed.

Lemma split_on_app c a b :
  no_char c a = true -> split_on c (a ++ String c b) = a :: split_on c b.
Proof.
  induction a as [|x a IH]; simpl; intros H.
  - now rewrite Ascii.eqb_refl.
  - apply andb_prop in H as [H1 H2]. apply negb_true_iff in H1.
    rewrite H1, IH by exact H2. reflexivity.
Qed.

Lemma split_on_concat ids :
  ids <> [] -> Forall (fun id => no_char "," id = true) ids ->
  split_on "," (String.concat "," ids) = ids.
Proof.
  induction ids as [|x ids IH]; intros Hne Hf; [congruence|].
  inversion Hf as [|? ? Hx Hr]; subst.
  destruct ids as [|y ids].
  - simpl. now apply split_on_no_char.
  - change (String.concat "," (x :: y :: ids))
      with (x ++ String "," (String.concat "," (y :: ids)))%string.
    rewrite split_on_app by exact Hx. rewrite IH; [reflexivity|discriminate|exact Hr].
Qed.

(** X1: localPoiSearch and localDescriptionsSearch each send exactly one
    GET whose only parameter [ids] is the ids joined by ","; when the list
    is non-empty and no id contains a comma, splitting that value on ","
    gives back the list, in order. *)
Theorem local_ids_round_trip server ids w :
  trace (snd (localPoiSearch server ids w)) =
    trace w ++ [Get (mkRequest (baseUrl (self w) ++ "/local/pois")
                      [("ids", String.concat "," ids)] (headers_of (self w)))] /\
  trace (snd (localDescriptionsSearch server ids w)) =
    trace w ++ [Get (mkRequest (baseUrl (self w) ++ "/local/descriptions")
                      [("ids", String.concat "," ids)] (headers_of (self w)))] /\
  (ids <> [] -> Forall (fun id => no_char "," id = true) ids ->
   split_on "," (String.concat "," ids) = ids).
Proof.
  unfold localPoiSearch, localDescriptionsSearch. rewrite !get_data_run.
  cbv zeta. split; [|split]; [destruct (server _ _); reflexivity..|].
  apply split_on_concat.
Qed.

Lemma local_ids_round_trip_witness :
  split_on "," (String.concat "," ["poi_id1"; "poi_id2"]) = ["poi_id1"; "poi_id2"].
Proof.
  apply (local_ids_round_trip (fun _ _ => Ok200 JNull) ["poi_id1"; "poi_id2"] world0).
  - discriminate.
  - repeat constructor.
Defined.

(** ** Error classes *)

(** X3: an error built by handleApiError (any snapshot) is never one of
    the two poller errors, so callers can tell a failed or timed-out
    summary from a failed request. *)
Theorem api_errors_distinct_from_poll_errors t :
  handleApiError t <> summary_failed_error /\
  handleApiError t <> summary_exhausted_error /\
  V1.handleApiError t <> summary_failed_error /\
  V1.handleApiError t <> summary_exhausted_error.
Proof.
  destruct t as [st d m|m]; unfold handleApiError, V1.handleApiError;
    [destruct (status_is st 429), (status_is st 401)|];
    repeat split; intros H; apply (f_equal message) in H; simpl in H;
    discriminate H.
Qed.

(** ** Summary poller, any server *)

(** X4: an HTTP error on a summarizer lookup within the budget, after only
    unfinished responses, ends the poll at once with the error built by
    handleApiError from that response: no wait and no further lookup. *)
Theorem pollForSummary_http_error server key options w k st d m :
  (Z.of_nat k < maxPollAttempts (self w))%Z ->
  (forall j, j < k ->
     nonterminal (server (count_gets (trace w) + j)
                         (summarizer_request (self w) key options)) = true) ->
  server (count_gets (trace w) + k) (summarizer_request (self w) key options)
    = AxiosFail st d m ->
  pollForSummary server key options w =
  (Err (handleApiError (ThrownAxios st d m)),
   mkWorld (self w)
     (trace w ++ concat (repeat (poll_block (self w) key options) k)
              ++ [Get (summarizer_request (self w) key options)])).
Proof.
  intros Hk Hn Hd.
  rewrite (pollForSummary_prefix server key options w k Hk Hn).
  replace (S (Z.to_nat (maxPollAttempts (self w))) - k)
    with (S (Z.to_nat (maxPollAttempts (self w)) - k)) by lia.
  rewrite poll_loop_step by (simpl; lia). cbv zeta. simpl self; simpl trace.
  rewrite count_gets_app, count_gets_blocks, Hd.
  rewrite <- app_assoc. reflexivity.
Qed.

Lemma pollForSummary_http_error_witness :
  pollForSummary
    (fun i _ => if Nat.eqb i 2 then AxiosFail (Some 429%Z) None "Too Many Requests"
                else Ok200 pending_response) "k1" [] world0 =
  (Err (handleApiError (ThrownAxios (Some 429%Z) None "Too Many Requests")),
   mkWorld client0 (concat (repeat (poll_block client0 "k1" []) 2)
                      ++ [Get (summarizer_request client0 "k1" [])])).
Proof.
  apply (pollForSummary_http_error _ "k1" [] world0 2).
  - vm_compute. reflexivity.
  - intros j Hj. destruct j as [|[|]]; [reflexivity|reflexivity|lia].
  - reflexivity.
Defined.

Lemma poll_loop_bounded server key options f :
  forall a w,
  exists k tail,
    snd (poll_loop server f a key options w) =
      mkWorld (self w)
        (trace w ++ concat (repeat (poll_block (self w) key options) k) ++ tail) /\
    (tail = [] \/ tail = [Get (summarizer_request (self w) key options)]) /\
    k + count_gets tail <= Z.to_nat (maxPollAttempts (self w)) - a.
Proof.
  induction f as [|f IH]; intros a w.
  - exists 0, []. simpl. rewrite app_nil_r. destruct w. split; [reflexivity|].
    split; [now left|]. change (count_gets []) with 0. lia.
  - destruct (Z.ltb_spec (Z.of_nat a) (maxPollAttempts (self w))) as [Ha|Ha].
    + rewrite poll_loop_step by exact Ha. cbv zeta.
      destruct (server _ _) as [d|st d m|m].
      * destruct (complete_with_summary d); [|destruct (status_failed d)].
        1-2: exists 0, [Get (summarizer_request (self w) key options)];
             repeat split; auto; change (count_gets [Get (summarizer_request (self w) key options)]) with 1; lia.
        destruct (IH (S a) (mkWorld (self w)
                  ((trace w ++ [Get (summarizer_request (self w) key options)])
                     ++ [Sleep (pollInterval (self w))])))
          as (k & tail & E & Ht & Hb).
        simpl self in *. simpl trace in E.
        exists (S k), tail. cbn [trace self]. rewrite E. repeat split; auto.
        -- simpl repeat. rewrite concat_cons. unfold poll_block.
           now rewrite <- !app_assoc.
        -- lia.
      * exists 0, [Get (summarizer_request (self w) key options)].
        repeat split; auto.
        change (count_gets [Get (summarizer_request (self w) key options)]) with 1; lia.
      * exists 0, [Get (summarizer_request (self w) key options)].
        repeat split; auto.
        change (count_gets [Get (summarizer_request (self w) key options)]) with 1; lia.
    + exists 0, []. rewrite poll_loop_exhausted by lia. simpl.
      rewrite app_nil_r. destruct w. repeat split; auto.
      change (count_gets []) with 0. lia.
Qed.

(** X5: whatever the server answers, pollForSummary only ever sends the
    same summarizer lookup, waits [pollInterval] after each lookup but
    possibly the last, and sends at most [maxPollAttempts] lookups (none
    when it is not positive). *)
Theorem pollForSummary_bounded server key options w :
  exists k tail,
    snd (pollForSummary server key options w) =
      mkWorld (self w)
        (trace w ++ concat (repeat (poll_block (self w) key options) k) ++ tail) /\
    (tail = [] \/ tail = [Get (summarizer_request (self w) key options)]) /\
    k + count_gets tail <= Z.to_nat (maxPollAttempts (self w)).
Proof.
  destruct (poll_loop_bounded server key options
              (S (Z.to_nat (maxPollAttempts (self w)))) 0 w)
    as (k & tail & E & Ht & Hb).
  exists k, tail. unfold pollForSummary, bind at 1, get_self.
  rewrite E. repeat split; auto. lia.
Qed.

(** ** Summarized answers *)

(** X6: when the web search of getSummarizedAnswer rejects, both returned
    outcomes carry that same error and no summarizer lookup is made: the
    run ends where the web search left it. *)
Theorem getSummarizedAnswer_web_error server query options sopts w e :
  fst (webSearch server query options w) = Err e ->
  getSummarizedAnswer server query options sopts w =
  (Ok (Err e, Err e), snd (webSearch server query options w)).
Proof.
  intros He. unfold getSummarizedAnswer, settle, bind at 1.
  destruct (webSearch server query options w) as [r w1]. simpl in He. subst r.
  reflexivity.
Qed.

Lemma getSummarizedAnswer_web_error_witness :
  let srv := fun (_ : nat) (_ : request) =>
    AxiosFail (Some 401%Z) None "Request failed with status code 401" in
  getSummarizedAnswer srv "stars" [] [] world0 =
  (Ok (Err (mkError "Authentication error: Request failed with status code 401" None),
       Err (mkError "Authentication error: Request failed with status code 401" None)),
   snd (webSearch srv "stars" [] world0)).
Proof.
  apply getSummarizedAnswer_web_error. vm_compute. reflexivity.
Defined.

(** ** The 422 retry of the first part_002 class *)

Lemma prefix_app s t : String.prefix s (s ++ t) = true.
Proof.
  induction s as [|a s IH]; simpl; [now destruct t|].
  destruct (Ascii.ascii_dec a a) as [_|n]; [exact IH|congruence].
Qed.

Lemma includes_of_prefix s sub :
  String.prefix sub s = true -> string_includes s sub = true.
Proof. destruct s; simpl; intros H; now rewrite H. Qed.

Lemma includes_app_r a b sub :
  string_includes b sub = true -> string_includes (a ++ b) sub = true.
Proof.
  induction a as [|x a IH]; simpl; intros H; [exact H|].
  rewrite (IH H). apply orb_true_r.
Qed.

(** X7: in the first part_002 class, an HTTP 422 from the web search (any
    body) logs one warning and sends exactly one more request, with the
    same headers and the [result_filter] parameter set to the widened
    list; the retry's answer is returned, and its failure is handled and
    thrown with no further request. *)
Theorem V3_webSearch_422_retry server query options w d m :
  let s := self w in
  let r := web_request s query options in
  let r' := mkRequest (baseUrl s ++ "/web/search")
              (usp_set (webSearch_params query options) "result_filter"
                       V3.widened_result_filter) (headers_of s) in
  let w2 := mkWorld s (trace w ++ [Get r; Warn warn_422; Get r']) in
  server (count_gets (trace w)) r = AxiosFail (Some 422%Z) d m ->
  V3.webSearch server query options w =
  match server (S (count_gets (trace w))) r' with
  | Ok200 d' => (Ok d', w2)
  | o' =>
      let (he, w3) := V3.handleApiError (V3.thrown_of o') w2 in
      (match he with Ok e => Err e | Err e => Err e end, w3)
  end.
Proof.
  cbv zeta. intros H.
  unfold V3.webSearch, getHeaders, axios_get, bind, get_self, ret. simpl.
  unfold web_request, headers_of in H. rewrite H. simpl.
  rewrite includes_app_r.
  2:{ vm_compute. reflexivity. }
  cbn [trace self]. rewrite !count_gets_app.
  change (count_gets [Get _]) with 1. change (count_gets [Warn _]) with 0.
  rewrite Nat.add_0_r, Nat.add_1_r, <- !app_assoc. unfold warn_422.
  destruct (server (S (count_gets (trace w))) _) as [d'|st' d'' m'|m'];
    simpl; try reflexivity;
    unfold V3.handleApiError, throw; simpl;
    repeat match goal with |- context [if ?b then _ else _] => destruct b end;
    reflexivity.
Qed.

Lemma V3_webSearch_422_retry_witness :
  V3.webSearch (fun i _ => if Nat.eqb i 0
                           then AxiosFail (Some 422%Z) None "Request failed with status code 422"
                           else Ok200 web_response_without_key) "stars" [] world0 =
  (Ok web_response_without_key,
   mkWorld client0 [Get (web_request client0 "stars" []); Warn warn_422;
                    Get (mkRequest (base_url ++ "/web/search")
                           [("q", "stars"); ("result_filter", V3.widened_result_filter)]
                           (headers_of client0))]).
Proof.
  pose proof (V3_webSearch_422_retry
    (fun i _ => if Nat.eqb i 0
                then AxiosFail (Some 422%Z) None "Request failed with status code 422"
                else Ok200 web_response_without_key) "stars" [] world0 None
    "Request failed with status code 422") as P.
  cbv zeta in P. rewrite P by reflexivity. vm_compute. reflexivity.
Defined.

(** ** Error re-wrapping in the first src/src class *)

(** X9: in the first src/src class every rejection of
    getSummarizedAnswer is re-wrapped as an "Unexpected error: " error
    without response data, so it is never reported as a rate-limit or
    authentication error. *)
Theorem V1_getSummarizedAnswer_rejections_unexpected server query options sopts w e :
  fst (V1.getSummarizedAnswer server query options sopts w) = Err e ->
  exists inner, e = mkError ("Unexpected error: " ++ inner) None.
Proof.
  unfold V1.getSummarizedAnswer, V1.catch, throw.
  destruct (bind _ _ w) as [[a|e0] w']; simpl; intros H; [discriminate|].
  injection H as <-. eexists. reflexivity.
Qed.

Lemma V1_getSummarizedAnswer_rejections_unexpected_witness :
  exists inner,
    mkError "Unexpected error: Rate limit exceeded: Request failed with status code 429" None
    = mkError ("Unexpected error: " ++ inner) None.
Proof.
  apply (V1_getSummarizedAnswer_rejections_unexpected
           (fun _ _ => AxiosFail (Some 429%Z) None "Request failed with status code 429")
           "stars" [] [] world0).
  vm_compute. reflexivity.
Defined.

(** X10: in the first src/src class an HTTP 429 on the web search of
    getSummarizedAnswer surfaces as "Unexpected error: Rate limit exceeded:
    ..." (the rate-limit error re-wrapped), after that single request. *)
Theorem V1_getSummarizedAnswer_rate_limit server query options sopts w d m :
  server (count_gets (trace w)) (web_request (self w) query options)
    = AxiosFail (Some 429%Z) d m ->
  V1.getSummarizedAnswer server query options sopts w =
  (Err (mkError ("Unexpected error: Rate limit exceeded: " ++ api_message d m) None),
   mkWorld (self w) (trace w ++ [Get (web_request (self w) query options)])).
Proof.
  intros H.
  unfold V1.getSummarizedAnswer, V1.catch, V1.webSearch, V1.get_data,
    getHeaders, axios_get, bind, get_self, ret, throw. simpl.
  unfold web_request, headers_of in H. rewrite H. reflexivity.
Qed.

Lemma V1_getSummarizedAnswer_rate_limit_witness :
  V1.getSummarizedAnswer (rate_limit_server (Some rate_limit_body) "Too Many Requests")
    "stars" [] [] world0 =
  (Err (mkError ("Unexpected error: Rate limit exceeded: "
                 ++ api_message (Some rate_limit_body) "Too Many Requests") None),
   mkWorld client0 [Get (web_request client0 "stars" [])]).
Proof.
  apply V1_getSummarizedAnswer_rate_limit. reflexivity.
Defined.

(** ** Requests of a run *)

Lemma appends_ret {A} (a : A) : appends_ok (ret a).
Proof. intros w. split; [reflexivity|]. exists []. now rewrite app_nil_r. Qed.

Lemma appends_throw {A} e : appends_ok (@throw A e).
Proof. intros w. split; [reflexivity|]. exists []. now rewrite app_nil_r. Qed.

Lemma appends_get_self : appends_ok get_self.
Proof. intros w. split; [reflexivity|]. exists []. now rewrite app_nil_r. Qed.

Lemma appends_sleep ms : appends_ok (sleep ms).
Proof.
  intros w. split; [reflexivity|]. exists [Sleep ms]. split; [reflexivity|].
  repeat constructor.
Qed.

Lemma appends_bind {A B} (m : M A) (k : A -> M B) :
  appends_ok m -> (forall a, appends_ok (k a)) -> appends_ok (bind m k).
Proof.
  intros Hm Hk w. unfold bind. specialize (Hm w).
  destruct (m w) as [[a|e] w']; simpl in *; destruct Hm as (Hs & l & Ht & Hl).
  - destruct (Hk a w') as (Hs' & l' & Ht' & Hl'). rewrite Hs in Hl'.
    split; [congruence|]. exists (l ++ l'). rewrite Ht', Ht, app_assoc.
    split; [reflexivity|]. now apply Forall_app.
  - split; [exact Hs|]. now exists l.
Qed.

Lemma appends_settle {A} (m : M A) : appends_ok m -> appends_ok (settle m).
Proof. intros Hm w. unfold settle. specialize (Hm w). now destruct (m w). Qed.

Lemma appends_get_data server path params :
  In path endpoint_paths -> appends_ok (get_data server path params).
Proof.
  intros Hp w. rewrite get_data_run. cbv zeta.
  assert (Hr : Forall (event_ok (self w))
     [Get (mkRequest (baseUrl (self w) ++ path) params (headers_of (self w)))]).
  { constructor; [|constructor]. split; [reflexivity|]. now exists path. }
  destruct (server _ _); (split; [reflexivity|]); eexists; split;
    (reflexivity || exact Hr).
Qed.

Create HintDb appends.
#[local] Hint Resolve appends_ret appends_throw appends_get_self appends_sleep
  appends_settle : appends.

Ltac appends_tac :=
  repeat (cbv zeta; match goal with
  | |- appends_ok (bind _ _) => apply appends_bind; intros
  | |- appends_ok (match ?x with _ => _ end) => destruct x
  | |- appends_ok (if ?b then _ else _) => destruct b
  | |- appends_ok (settle _) => apply appends_settle
  | |- appends_ok (get_data _ _ _) => apply appends_get_data; simpl; tauto
  | _ => solve [eauto with appends]
  end).

Lemma appends_poll_loop server f a key options :
  appends_ok (poll_loop server f a key options).
Proof.
  revert a; induction f as [|f IH]; intros a; simpl; [apply appends_throw|].
  unfold summarizerSearch. appends_tac.
Qed.
#[local] Hint Resolve appends_poll_loop : appends.

(** X11: over any sequence of public calls on one client and whatever the
    server answers, [this] is unchanged and every request sent carries the
    client's three headers (with its API key) and goes to its base URL
    followed by one of the four endpoints. *)
Theorem run_calls_requests_ok server cs w :
  self (snd (run_calls server cs w)) = self w /\
  exists l, trace (snd (run_calls server cs w)) = trace w ++ l /\
            Forall (fun ev => match ev with
                              | Get r => request_ok (self w) r
                              | _ => True
                              end) l.
Proof.
  revert w. change (appends_ok (run_calls server cs)).
  induction cs as [|c cs IH]; simpl; [apply appends_ret|].
  apply appends_bind; [|intros; exact IH].
  destruct c; unfold run_call, getSummarizedAnswer, webSearch, localPoiSearch,
    localDescriptionsSearch, pollForSummary; appends_tac.
Qed.
